(** * graphql-for-vscode: workspace client registry and status indicator

    A shallow embedding of the two TypeScript sources of the extension:

    - [extension.ts]: the registry [clients] (a JavaScript [Map] from the
      string form of a workspace-folder URI to a [Client] or [null]),
      [createClientForWorkspaces], [createClientForWorkspace] and
      [deactivate];
    - [ClientStatusBarItem.ts]: the status indicator class.

    JavaScript statements run in a state-and-exception monad: effects made
    before an exception is thrown persist, as they do in the source. *)

From Stdlib Require Import String List.
From stdpp Require Import base option list strings gmap.

Open Scope string_scope.
Open Scope list_scope.

(** ** Completions and the state-and-exception monad *)

(** What the code here can throw: a [TypeError] from a property of [null],
    and the editor's error for a command id that is registered already. *)
Inductive JSError :=
| TypeError
| CommandExists (id : string).

Inductive completion (A : Type) :=
| Normal (a : A)
| Throw (e : JSError).
Arguments Normal {A} a.
Arguments Throw {A} e.

Definition JS (S A : Type) : Type := S -> completion A * S.

Definition ret {S A} (a : A) : JS S A := fun s => (Normal a, s).

Definition throw {S A} (e : JSError) : JS S A := fun s => (Throw e, s).

Definition bind {S A B} (m : JS S A) (k : A -> JS S B) : JS S B :=
  fun s =>
    match m s with
    | (Normal a, s') => k a s'
    | (Throw e, s') => (Throw e, s')
    end.

Definition getState {S} : JS S S := fun s => (Normal s, s).

Definition modify {S} (f : S -> S) : JS S unit := fun s => (Normal tt, f s).

Notation "'do' x <- m ; k" := (bind m (fun x => k))
  (at level 10, x name, m at level 100, k at level 200).
Notation "m ';;;' k" := (bind m (fun _ => k))
  (at level 100, k at level 200, right associativity).

(** [arr.forEach(cb)] over an array snapshot. *)
Fixpoint forEach {S A} (cb : A -> JS S unit) (l : list A) : JS S unit :=
  match l with
  | [] => ret tt
  | x :: l' => cb x ;;; forEach cb l'
  end.

(** ** Observable effects on the editor and on the protocol clients *)

Inductive Effect :=
| ConsoleLog (msg key : string)
| FindConfigFile (fsPath : string)
| CreateOutputChannel (name : string)
| NewLanguageClient (folder : string) (args : list string)
| NewStatusBarItem (folder : string)
| ClientStart (folder : string)
| MapSet (key : string) (nonnull : bool)
| MapDelete (key : string)
| ClientStop (folder : string)
| ChannelHide (name : string)
| ChannelDispose (name : string)
| StatusBarItemDispose (folder : string)
| ClientError (channel msg data : string)
| ChannelShow (name : string) (preserveFocus : option bool).

Global Instance Effect_eq_dec : EqDecision Effect.
Proof. solve_decision. Defined.

(** ** The protocol client, as far as the two sources read it *)

(** [State] of vscode-languageclient. *)
Module State.
Inductive t := Stopped | Running | Starting.
End State.

Global Instance State_eq_dec : EqDecision State.t.
Proof. solve_decision. Defined.

Record InitializeResult := { fileExtensions : list string }.

Record LanguageClient := {
  run_args : list string;            (* serverOptions.run.args *)
  debug_execArgv : list string;      (* serverOptions.debug.options.execArgv *)
  workspaceFolder : string;          (* clientOptions.workspaceFolder.uri.toString() *)
  outputChannel : string;            (* outputChannel.name *)
  initializeResult : option InitializeResult;
}.

Definition set_initializeResult (r : option InitializeResult) (c : LanguageClient)
  : LanguageClient :=
  {| run_args := run_args c; debug_execArgv := debug_execArgv c;
     workspaceFolder := workspaceFolder c; outputChannel := outputChannel c;
     initializeResult := r |}.

Record TextDocument := { doc_uri : string }.
Record TextEditor := { document : TextDocument }.

(** The filter handed to [languages.match]. *)
Record DocumentFilter := { scheme : string; pattern : string }.

(** ** ClientStatusBarItem.ts *)

Module Status.
(** [enum Status { init = 1, ok = 2, error = 3 }] *)
Inductive t := init | ok | error.
End Status.

Global Instance Status_eq_dec : EqDecision Status.t.
Proof. solve_decision. Defined.

Record UI := { icon : string; color : string; tooltip : string }.

Definition STATUS_BAR_ITEM_NAME : string := "GQL".

Definition STATUS_BAR_UI (s : Status.t) : UI :=
  match s with
  | Status.init =>
      {| icon := "sync"; color := "white";
         tooltip := "Graphql language server is initializing." |}
  | Status.ok =>
      {| icon := "plug"; color := "while";
         tooltip := "Graphql language server is running." |}
  | Status.error =>
      {| icon := "stop"; color := "red";
         tooltip := "Graphql language server is not running." |}
  end.

(** The editor's [StatusBarItem]: the UI primitive. *)
Record StatusBarItem := {
  item_text : string;
  item_tooltip : option string;
  item_color : option string;
  item_command : option string;
  item_visible : bool;
}.

(** [window.createStatusBarItem(StatusBarAlignment.Right, 0)] *)
Definition createStatusBarItem : StatusBarItem :=
  {| item_text := ""; item_tooltip := None; item_color := None;
     item_command := None; item_visible := false |}.

Definition set_ui (text : string) (tip col : string) (it : StatusBarItem) : StatusBarItem :=
  {| item_text := text; item_tooltip := Some tip; item_color := Some col;
     item_command := item_command it; item_visible := item_visible it |}.

Definition set_command (cmd : string) (it : StatusBarItem) : StatusBarItem :=
  {| item_text := item_text it; item_tooltip := item_tooltip it;
     item_color := item_color it; item_command := Some cmd;
     item_visible := item_visible it |}.

Definition set_visible (b : bool) (it : StatusBarItem) : StatusBarItem :=
  {| item_text := item_text it; item_tooltip := item_tooltip it;
     item_color := item_color it; item_command := item_command it;
     item_visible := b |}.

(** What the indicator registers with the editor and with its client.
    Each registering call returns a [Disposable] that undoes it. *)
Inductive Registration :=
| RegCommand (name : string)        (* commands.registerCommand *)
| RegStateListener                  (* client.onDidChangeState *)
| RegReadyCallbacks                 (* client.onReady().then(..., ...) *)
| RegActiveEditorListener.          (* window.onDidChangeActiveTextEditor *)

Global Instance Registration_eq_dec : EqDecision Registration.
Proof. solve_decision. Defined.

Inductive Disposable :=
| DItem                             (* the status bar item itself *)
| DRegistration (r : Registration).

(** One indicator together with the part of the editor it talks to.
    [_item], [_client] and [_disposables] are the fields of the class
    ([None] is [null]); [registrations] are the handlers the editor and
    the client still hold for it, together with the commands the editor
    has registered for others, which share one name space with its own;
    [released] tells whether the UI primitive has been disposed;
    [effects] logs calls on the output channel. The client object is
    reached only through [_client], so it is kept by value there. *)
Record Indicator := {
  _item : option StatusBarItem;
  _client : option LanguageClient;
  _disposables : list Disposable;
  registrations : list Registration;
  released : bool;
  effects : list Effect;
}.

Definition with_item (i : option StatusBarItem) (w : Indicator) : Indicator :=
  {| _item := i; _client := _client w; _disposables := _disposables w;
     registrations := registrations w; released := released w;
     effects := effects w |}.

Definition with_client (c : option LanguageClient) (w : Indicator) : Indicator :=
  {| _item := _item w; _client := c; _disposables := _disposables w;
     registrations := registrations w; released := released w;
     effects := effects w |}.

Definition push_disposable (d : Disposable) (w : Indicator) : Indicator :=
  {| _item := _item w; _client := _client w;
     _disposables := _disposables w ++ [d];
     registrations := registrations w; released := released w;
     effects := effects w |}.

Definition register (r : Registration) (w : Indicator) : Indicator :=
  {| _item := _item w; _client := _client w; _disposables := _disposables w;
     registrations := registrations w ++ [r]; released := released w;
     effects := effects w |}.

Definition unregister (r : Registration) (w : Indicator) : Indicator :=
  {| _item := _item w; _client := _client w; _disposables := _disposables w;
     registrations := filter (fun r' => r' <> r) (registrations w);
     released := released w; effects := effects w |}.

Definition release_item (w : Indicator) : Indicator :=
  {| _item := _item w; _client := _client w; _disposables := _disposables w;
     registrations := registrations w; released := true;
     effects := effects w |}.

Definition emit (e : Effect) (w : Indicator) : Indicator :=
  {| _item := _item w; _client := _client w; _disposables := _disposables w;
     registrations := registrations w; released := released w;
     effects := effects w ++ [e] |}.

(** The state before the constructor body runs: field initialisers only,
    in an editor that has no command registered. *)
Definition fresh : Indicator :=
  {| _item := None; _client := None; _disposables := [];
     registrations := []; released := false; effects := [] |}.

(** The same in an editor where the commands [ids] are registered. *)
Definition editor_with (ids : list string) : Indicator :=
  {| _item := None; _client := None; _disposables := [];
     registrations := RegCommand <$> ids; released := false; effects := [] |}.

(** The command ids the editor holds. *)
Definition registered_commands (w : Indicator) : list string :=
  omap (fun r => match r with RegCommand id => Some id | _ => None end)
       (registrations w).

(** [this._item.<...>]: dereferencing [null] throws. *)
Definition the_item : JS Indicator StatusBarItem :=
  fun w => match _item w with
           | Some it => (Normal it, w)
           | None => (Throw TypeError, w)
           end.

Definition the_client : JS Indicator LanguageClient :=
  fun w => match _client w with
           | Some c => (Normal c, w)
           | None => (Throw TypeError, w)
           end.

Definition update_item (f : StatusBarItem -> StatusBarItem) : JS Indicator unit :=
  do it <- the_item; modify (with_item (Some (f it))).

Definition _setStatus (status : Status.t) : JS Indicator unit :=
  let ui := STATUS_BAR_UI status in
  update_item
    (set_ui ("$(" +:+ icon ui +:+ ") " +:+ STATUS_BAR_ITEM_NAME) (tooltip ui) (color ui)).

Definition _show : JS Indicator unit := update_item (set_visible true).
Definition _hide : JS Indicator unit := update_item (set_visible false).

Definition _getWorkspace : JS Indicator string :=
  do c <- the_client; ret (workspaceFolder c).

(** The handler of [client.onDidChangeState]. *)
Definition onDidChangeState_handler (oldState newState : State.t) : JS Indicator unit :=
  match newState with
  | State.Running => _setStatus Status.ok
  | State.Stopped => _setStatus Status.error
  | _ => ret tt
  end.

Definition onReady_fulfilled : JS Indicator unit := _setStatus Status.ok.
Definition onReady_rejected : JS Indicator unit := _setStatus Status.error.

Definition _registerStatusChangeListeners : JS Indicator unit :=
  the_client ;;;
  modify (register RegStateListener) ;;;
  modify (register RegReadyCallbacks).

(** The command bound to the indicator. *)
Definition showOutputChannel_command : JS Indicator unit :=
  do c <- the_client; modify (emit (ChannelShow (outputChannel c) None)).

(** [commands.registerCommand(id, ...)]: the editor throws when the id is
    registered already. *)
Definition registerCommand (id : string) : JS Indicator unit :=
  do w <- getState;
  if bool_decide (RegCommand id ∈ registrations w)
  then throw (CommandExists id)
  else modify (register (RegCommand id)).

Definition _addOnClickToShowOutputChannel : JS Indicator Disposable :=
  do c <- the_client;
  let commandName := "showOutputChannel-" +:+ outputChannel c in
  registerCommand commandName ;;;
  update_item (set_command commandName) ;;;
  ret (DRegistration (RegCommand commandName)).

Section Editor.

(** [workspace.getWorkspaceFolder(uri)], giving the folder's
    [uri.toString()], and [languages.match(filter, document)], giving
    the score. Both belong to the editor. *)
Variable getWorkspaceFolder : string -> option string.
Variable languages_match : DocumentFilter -> TextDocument -> nat.

Definition _checkDocumentInsideWorkspace (doc : TextDocument) : JS Indicator bool :=
  match getWorkspaceFolder (doc_uri doc) with
  | None => ret false
  | Some folder =>
      do ws <- _getWorkspace; ret (bool_decide (folder = ws))
  end.

(** The glob of [_updateVisibility]. *)
Definition extensions_filter (extensions : list string) : DocumentFilter :=
  {| scheme := "file";
     pattern := "**/*.{" +:+ String.concat "," extensions +:+ "}" |}.

Definition _updateVisibility (textEditor : option TextEditor) : JS Indicator unit :=
  do hide <-
    match textEditor with
    | None => ret true
    | Some ed =>
        do inside <- _checkDocumentInsideWorkspace (document ed);
        if inside then
          do c <- the_client;
          match initializeResult c with
          | Some res =>
              let score :=
                languages_match (extensions_filter (fileExtensions res))
                                (document ed) in
              ret (Nat.eqb score 0)
          | None => ret false
          end
        else ret true
    end;
  if hide then _hide else _show.

(** [new ClientStatusBarItem(client)], with [window.activeTextEditor]. *)
Definition constructor (client : LanguageClient)
           (activeTextEditor : option TextEditor) : JS Indicator unit :=
  modify (with_item (Some createStatusBarItem)) ;;;
  modify (with_client (Some client)) ;;;
  modify (push_disposable DItem) ;;;
  (do d <- _addOnClickToShowOutputChannel; modify (push_disposable d)) ;;;
  _setStatus Status.init ;;;
  _registerStatusChangeListeners ;;;
  _updateVisibility activeTextEditor ;;;
  modify (register RegActiveEditorListener).

Definition dispose_one (d : Disposable) : JS Indicator unit :=
  match d with
  | DItem => modify release_item
  | DRegistration r => modify (unregister r)
  end.

Definition dispose : JS Indicator unit :=
  do w <- getState;
  forEach dispose_one (_disposables w) ;;;
  modify (with_item None) ;;;
  modify (with_client None).

(** What can happen to an indicator after its construction. *)
Inductive Event :=
| DidChangeState (oldState newState : State.t)
| ReadyResolved
| ReadyRejected
| DidChangeActiveTextEditor (textEditor : option TextEditor)
| Click
| Initialized (res : InitializeResult)
| Dispose.

(** A handler runs only while the editor or the client still holds it. *)
Definition when_registered (r : Registration) (h : JS Indicator unit)
  : JS Indicator unit :=
  do w <- getState;
  if bool_decide (r ∈ registrations w) then h else ret tt.

Definition deliver (ev : Event) : JS Indicator unit :=
  match ev with
  | DidChangeState o n =>
      when_registered RegStateListener (onDidChangeState_handler o n)
  | ReadyResolved => when_registered RegReadyCallbacks onReady_fulfilled
  | ReadyRejected => when_registered RegReadyCallbacks onReady_rejected
  | DidChangeActiveTextEditor ed =>
      when_registered RegActiveEditorListener (_updateVisibility ed)
  | Click =>
      do w <- getState;
      match _item w with
      | Some it =>
          match item_command it with
          | Some cmd => when_registered (RegCommand cmd) showOutputChannel_command
          | None => ret tt
          end
      | None => ret tt
      end
  | Initialized res =>
      modify (fun w => with_client (set_initializeResult (Some res) <$> _client w) w)
  | Dispose => dispose
  end.

Fixpoint deliver_all (evs : list Event) : JS Indicator unit :=
  match evs with
  | [] => ret tt
  | ev :: evs' => deliver ev ;;; deliver_all evs'
  end.

End Editor.

(** ** JavaScript [Map] with string keys

    Entries are kept in insertion order, which is the order [forEach]
    visits them in. *)
Module JSMap.

Definition has {V} (k : string) (m : list (string * V)) : bool :=
  bool_decide (k ∈ m.*1).

Fixpoint get {V} (k : string) (m : list (string * V)) : option V :=
  match m with
  | [] => None
  | (k', v) :: m' => if bool_decide (k' = k) then Some v else get k m'
  end.

(** [m.set(k, v)]: an existing key keeps its place. *)
Definition set {V} (k : string) (v : V) (m : list (string * V))
  : list (string * V) :=
  if has k m
  then (fun e => if bool_decide (e.1 = k) then (k, v) else e) <$> m
  else m ++ [(k, v)].

Definition delete {V} (k : string) (m : list (string * V))
  : list (string * V) :=
  filter (fun e => e.1 <> k) m.

(** [m.forEach(cb)] where [cb] may delete entries of [m]: the iteration
    is live, so an entry deleted before its turn is skipped, and one
    deleted during its own turn does not disturb the entries after it.
    [current] reads the map out of the program state. Callbacks that
    add or overwrite entries are not covered; the program has none. *)
Fixpoint forEach_from {S V} (current : S -> list (string * V))
         (cb : V -> string -> JS S unit) (todo : list (string * V))
  : JS S unit :=
  match todo with
  | [] => ret tt
  | (k, v) :: rest =>
      (do s <- getState;
       if has k (current s) then cb v k else ret tt) ;;;
      forEach_from current cb rest
  end.

Definition forEach {S V} (current : S -> list (string * V))
           (cb : V -> string -> JS S unit) : JS S unit :=
  do s <- getState; forEach_from current cb (current s).

End JSMap.

(** ** extension.ts *)

(** Configuration values as the settings of this extension hold them. *)
Inductive JSValue :=
| VUndefined
| VNull
| VBool (b : bool)
| VStr (s : string).

(** [`${v}`] *)
Definition template (v : JSValue) : string :=
  match v with
  | VUndefined => "undefined"
  | VNull => "null"
  | VBool true => "true"
  | VBool false => "false"
  | VStr s => s
  end.

(** [WorkspaceConfiguration]: [has] and [get] over the settings in force
    for one folder. *)
Record WorkspaceConfiguration := { settings : gmap string JSValue }.

Definition cfg_has (cfg : WorkspaceConfiguration) (section : string) : bool :=
  bool_decide (is_Some (settings cfg !! section)).

Definition cfg_get (cfg : WorkspaceConfiguration) (section : string) : JSValue :=
  default VUndefined (settings cfg !! section).

(** [Boolean(x)] on an array slot that holds a string or [null]. *)
Definition Boolean (x : option string) : bool :=
  match x with
  | None => false
  | Some s => negb (bool_decide (s = ""))
  end.

(** [arr.filter(Boolean)] *)
Fixpoint filter_Boolean (l : list (option string)) : list string :=
  match l with
  | [] => []
  | x :: l' =>
      if Boolean x
      then match x with Some s => s :: filter_Boolean l' | None => filter_Boolean l' end
      else filter_Boolean l'
  end.

(** [serverOptions.run.args] *)
Definition serverOptions_run_args (configuration : WorkspaceConfiguration)
  : list string :=
  filter_Boolean
    [ if cfg_has configuration "watchman"
      then Some ("--watchman=" +:+ template (cfg_get configuration "watchman"))
      else None;
      if cfg_has configuration "autoDownloadGQL"
      then Some ("--auto-download-gql="
                 +:+ template (cfg_get configuration "autoDownloadGQL"))
      else None ].

Record Uri := { toString : string; fsPath : string }.
Record WorkspaceFolder := { uri : Uri; name : string }.

(** [interface Client]. Its [statusBarItem] is the indicator the
    [constructor] builds, which lives on in the editor, and its [dispose]
    is [Client_dispose] below; the registry reads neither, so an entry
    carries the protocol client. *)
Record Client := { client : LanguageClient }.

(** The module-level state: the [clients] map, what the extension has
    done to the editor so far, and the command ids it holds in the
    editor's command registry. *)
Record Extension := {
  clients : list (string * option Client);
  trace : list Effect;
  commands : list string;
}.

Definition activation : Extension :=
  {| clients := []; trace := []; commands := [] |}.

Definition log (e : Effect) : JS Extension unit :=
  modify (fun s => {| clients := clients s; trace := trace s ++ [e];
                      commands := commands s |}).

Definition clients_set (key : string) (c : option Client) : JS Extension unit :=
  modify (fun s => {| clients := JSMap.set key c (clients s);
                      trace := trace s ++ [MapSet key (bool_decide (is_Some c))];
                      commands := commands s |}).

Definition clients_delete (key : string) : JS Extension unit :=
  modify (fun s => {| clients := JSMap.delete key (clients s);
                      trace := trace s ++ [MapDelete key];
                      commands := commands s |}).

(** What the editor and the file system answer while one handler runs. *)
Record Env := {
  workspaceFolders : option (list WorkspaceFolder);
  getConfiguration : string -> WorkspaceConfiguration;
  findGQLConfigFile_silent : string -> bool;
  activeTextEditor : option TextEditor;
  getWorkspaceFolder : string -> option string;
  languages_match : DocumentFilter -> TextDocument -> nat;
}.

(** The id of the click command of a client's indicator. *)
Definition command_id (c : Client) : string :=
  "showOutputChannel-" +:+ outputChannel (client c).

(** The disposable of a registered command: the editor forgets the id. *)
Definition command_dispose (id : string) : JS Extension unit :=
  modify (fun s => {| clients := clients s; trace := trace s;
                      commands := filter (fun id' => id' <> id) (commands s) |}).

(** The [dispose] of the wrapper: the three subscriptions in order. The
    last one is the indicator's [dispose], which releases the item and
    the click command. *)
Definition Client_dispose (c : Client) : JS Extension unit :=
  log (ClientStop (workspaceFolder (client c))) ;;;
  log (ChannelHide (outputChannel (client c))) ;;;
  log (ChannelDispose (outputChannel (client c))) ;;;
  log (StatusBarItemDispose (workspaceFolder (client c))) ;;;
  command_dispose (command_id c).

(** [client.error(message, data)] of vscode-languageclient: the client
    writes the message and the data to its own output channel and reveals
    that channel without taking the focus. *)
Definition client_error (c : LanguageClient) (message data : string)
  : JS Extension unit :=
  log (ClientError (outputChannel c) message data) ;;;
  log (ChannelShow (outputChannel c) (Some true)).

(** [initializationFailedHandler]; the result is the retry decision. *)
Definition initializationFailedHandler (c : LanguageClient) (message : string)
  : JS Extension bool :=
  client_error c "Server initialization failed:" message ;;;
  log (ChannelShow (outputChannel c) (Some true)) ;;;
  ret false.

(** [new ClientStatusBarItem(client)] as [createClientForWorkspace] runs
    it: the constructor meets the command ids the extension holds, and
    when it returns its own id is held too. What it throws is thrown
    on. *)
Definition new_ClientStatusBarItem (env : Env) (c : LanguageClient)
  : JS Extension unit :=
  fun s =>
    match constructor (getWorkspaceFolder env) (languages_match env) c
                      (activeTextEditor env) (editor_with (commands s)) with
    | (Normal _, w) =>
        (Normal tt, {| clients := clients s; trace := trace s;
                       commands := registered_commands w |})
    | (Throw e, _) => (Throw e, s)
    end.

(** [path.join(folder.uri.fsPath)] only normalises the path; the probe
    [findGQLConfigFile_silent] of [Env] takes the path as the folder has
    it. The client options other than the output channel and the folder
    are not read by any code here. *)
Definition createClientForWorkspace (env : Env) (folder : WorkspaceFolder)
  : JS Extension (option Client) :=
  let configuration := getConfiguration env (toString (uri folder)) in
  log (FindConfigFile (fsPath (uri folder))) ;;;
  if negb (findGQLConfigFile_silent env (fsPath (uri folder))) then ret None
  else
    let outputChannelName := "Graphql-" +:+ name folder in
    log (CreateOutputChannel outputChannelName) ;;;
    let c := {| run_args := serverOptions_run_args configuration;
                debug_execArgv := ["--nolazy"; "--debug=6004"];
                workspaceFolder := toString (uri folder);
                outputChannel := outputChannelName;
                initializeResult := None |} in
    log (NewLanguageClient (toString (uri folder)) (run_args c)) ;;;
    log (NewStatusBarItem (toString (uri folder))) ;;;
    new_ClientStatusBarItem env c ;;;
    log (ClientStart (toString (uri folder))) ;;;
    ret (Some {| client := c |}).

(** The first loop of [createClientForWorkspaces]; the result is
    [workspaceFoldersIndex], a plain object used as a set of keys. The
    keys are [uri.toString()] strings, which start with a scheme and a
    colon, so none of them names a member of [Object.prototype]. *)
Fixpoint add_folders (env : Env) (folders : list WorkspaceFolder)
         (workspaceFoldersIndex : gmap string bool)
  : JS Extension (gmap string bool) :=
  match folders with
  | [] => ret workspaceFoldersIndex
  | folder :: rest =>
      let key := toString (uri folder) in
      (do s <- getState;
       if JSMap.has key (clients s) then ret tt
       else
         do c <- createClientForWorkspace env folder;
         log (ConsoleLog "adding client" key) ;;;
         clients_set key c) ;;;
      add_folders env rest (<[key := true]> workspaceFoldersIndex)
  end.

(** The callback of the second loop. *)
Definition remove_client (workspaceFoldersIndex : gmap string bool)
           (c : option Client) (key : string) : JS Extension unit :=
  if negb (default false (workspaceFoldersIndex !! key)) then
    log (ConsoleLog "deleting client" key) ;;;
    clients_delete key ;;;
    match c with
    | Some c' => Client_dispose c'
    | None => ret tt
    end
  else ret tt.

Definition createClientForWorkspaces (env : Env) : JS Extension unit :=
  let folders := default [] (workspaceFolders env) in
  do workspaceFoldersIndex <- add_folders env folders ∅;
  JSMap.forEach clients (remove_client workspaceFoldersIndex).

(** [deactivate]; the result is the array handed to [Promise.all]. The
    wrapper's [dispose] has a block body without [return], so each slot
    is [undefined]. *)
Definition deactivate_callback (c : option Client) (key : string)
  : JS (Extension * list JSValue) unit :=
  match c with
  | None => throw TypeError
  | Some c' =>
      fun s =>
        match Client_dispose c' s.1 with
        | (Normal _, e) => (Normal tt, (e, s.2 ++ [VUndefined]))
        | (Throw err, e) => (Throw err, (e, s.2))
        end
  end.

Definition deactivate (s : Extension) : completion (list JSValue) * Extension :=
  match JSMap.forEach (fun s' => clients s'.1) deactivate_callback (s, []) with
  | (Normal _, (e, promises)) => (Normal promises, e)
  | (Throw err, (e, _)) => (Throw err, e)
  end.

(** The folder changes after activation: each one runs the handler
    anew, on the state the one before left, whether that one returned or
    threw. *)
Fixpoint handle_changes (envs : list Env) (s : Extension) : Extension :=
  match envs with
  | [] => s
  | env :: envs' => handle_changes envs' (createClientForWorkspaces env s).2
  end.

(** The extension's life: [activate] runs the reconciliation once and,
    when that returns, subscribes it to the changes of the workspace
    folders; when it throws, nothing is subscribed. The head of [envs]
    is what [activate] meets, the tail are the changes. *)
Definition reconcile_all (envs : list Env) : JS Extension unit :=
  match envs with
  | [] => ret tt
  | env :: envs' =>
      fun s =>
        match createClientForWorkspaces env s with
        | (Normal _, s1) => (Normal tt, handle_changes envs' s1)
        | (Throw e, s1) => (Throw e, s1)
        end
  end.

(** ** The specification's vocabulary

    These definitions follow the words of the specification; the theorems
    below compare the code with them. *)

(** The indicator's states of section 4.3. *)
Inductive ClientState := Initializing | Ready | Error.

Definition status_of_state (st : ClientState) : Status.t :=
  match st with
  | Initializing => Status.init
  | Ready => Status.ok
  | Error => Status.error
  end.

(** The transition table of section 4.3: the four listed events move the
    state, nothing else does. *)
Definition spec_transition (st : ClientState) (ev : Event) : ClientState :=
  match ev with
  | DidChangeState _ State.Running => Ready
  | DidChangeState _ State.Stopped => Error
  | ReadyResolved => Ready
  | ReadyRejected => Error
  | _ => st
  end.

(** The visibility rule of section 4.3. [containing_root] is the root the
    focused document lies in, [matches] tells whether it matches the glob
    of an extension set. *)
Definition spec_visible (root : string) (focused : option TextDocument)
           (containing_root : TextDocument -> option string)
           (advertised : option (list string))
           (matches : list string -> TextDocument -> bool) : bool :=
  match focused with
  | None => false
  | Some doc =>
      if bool_decide (containing_root doc = Some root) then
        match advertised with
        | None => true
        | Some extensions => matches extensions doc
        end
      else false
  end.

(** Section 6: each set key is emitted as [--key=value], in the order
    watchman, autoDownloadGQL. *)
Definition spec_launch_args (cfg : WorkspaceConfiguration) : list string :=
  flat_map
    (fun key =>
       if cfg_has cfg key
       then ["--" +:+ key +:+ "=" +:+ template (cfg_get cfg key)]
       else [])
    ["watchman"; "autoDownloadGQL"].

(** The item renders the triple of [status]. *)
Definition renders (status : Status.t) (it : StatusBarItem) : Prop :=
  item_text it = "$(" +:+ icon (STATUS_BAR_UI status) +:+ ") GQL"
  /\ item_tooltip it = Some (tooltip (STATUS_BAR_UI status))
  /\ item_color it = Some (color (STATUS_BAR_UI status)).

Definition shows (status : Status.t) (w : Indicator) : Prop :=
  exists it, _item w = Some it /\ renders status it.

(** [a] occurs in [t] and [b] occurs somewhere after it. *)
Fixpoint beforeb (a b : Effect) (t : list Effect) : bool :=
  match t with
  | [] => false
  | e :: t' => if bool_decide (e = a) then bool_decide (b ∈ t') else beforeb a b t'
  end.

Definition folder_key (folder : WorkspaceFolder) : string := toString (uri folder).

Definition root_keys (env : Env) : list string :=
  folder_key <$> default [] (workspaceFolders env).

(** The effects of one wrapper's [dispose]. *)
Definition dispose_effects (c : Client) : list Effect :=
  [ ClientStop (workspaceFolder (client c));
    ChannelHide (outputChannel (client c));
    ChannelDispose (outputChannel (client c));
    StatusBarItemDispose (workspaceFolder (client c)) ].

(** ** Sample data *)

Definition folderA : WorkspaceFolder :=
  {| uri := {| toString := "file:///a"; fsPath := "/a" |}; name := "a" |}.

Definition folderB : WorkspaceFolder :=
  {| uri := {| toString := "file:///b"; fsPath := "/b" |}; name := "b" |}.

Definition clientA : LanguageClient :=
  {| run_args := ["--watchman=npx watchman"];
     debug_execArgv := ["--nolazy"; "--debug=6004"];
     workspaceFolder := "file:///a";
     outputChannel := "Graphql-a";
     initializeResult := None |}.

Definition doc_gql : TextDocument := {| doc_uri := "file:///a/foo.gql" |}.
Definition doc_ts : TextDocument := {| doc_uri := "file:///a/foo.ts" |}.
Definition doc_outside : TextDocument := {| doc_uri := "file:///z/foo.gql" |}.

(** A sample editor: documents under [file:///a/] lie in root
    [file:///a]; a document matches a filter when its URI ends in a dot
    followed by one of the extensions between the braces. *)
Definition sample_getWorkspaceFolder (u : string) : option string :=
  if String.prefix "file:///a/" u then Some "file:///a" else None.

Fixpoint ends_with (suffix s : string) : bool :=
  bool_decide (s = suffix)
  || match s with
     | EmptyString => false
     | String _ s' => ends_with suffix s'
     end.

Definition sample_match (f : DocumentFilter) (doc : TextDocument) : nat :=
  if bool_decide (pattern f = "**/*.{graphql,gql}")
     && (ends_with ".graphql" (doc_uri doc) || ends_with ".gql" (doc_uri doc))
  then 10 else 0.

(** Only [/a] holds a [.gqlconfig]. *)
Definition sample_env (folders : list WorkspaceFolder) : Env :=
  {| workspaceFolders := Some folders;
     getConfiguration :=
       fun _ => {| settings := {["watchman" := VStr "npx watchman"]} |};
     findGQLConfigFile_silent := fun p => bool_decide (p = "/a");
     activeTextEditor := None;
     getWorkspaceFolder := sample_getWorkspaceFolder;
     languages_match := sample_match |}.

(** ** Definitions used by the statements *)

Global Instance InitializeResult_eq_dec : EqDecision InitializeResult.
Proof. solve_decision. Defined.

Global Instance TextDocument_eq_dec : EqDecision TextDocument.
Proof. solve_decision. Defined.

Global Instance TextEditor_eq_dec : EqDecision TextEditor.
Proof. solve_decision. Defined.

Global Instance Event_eq_dec : EqDecision Event.
Proof. solve_decision. Defined.

(** The visibility [_updateVisibility] leaves behind on a live indicator,
    read with the specification's rule: the containing root comes from
    [getWorkspaceFolder] and a document matches an extension set when
    [languages.match] scores it above zero against [extensions_filter]. *)
Definition visible_after (getWorkspaceFolder : string -> option string)
           (languages_match : DocumentFilter -> TextDocument -> nat)
           (c : LanguageClient) (textEditor : option TextEditor) : bool :=
  spec_visible (workspaceFolder c) (document <$> textEditor)
               (fun doc => getWorkspaceFolder (doc_uri doc))
               (fileExtensions <$> initializeResult c)
               (fun extensions doc =>
                  negb (Nat.eqb (languages_match (extensions_filter extensions) doc) 0)).

(** The invariant of an indicator that has not been disposed and is in
    state [st]. *)
Definition live (st : ClientState) (w : Indicator) : Prop :=
  shows (status_of_state st) w
  /\ is_Some (_client w)
  /\ RegStateListener ∈ registrations w
  /\ RegReadyCallbacks ∈ registrations w.

Definition the_visible (w : Indicator) : option bool := item_visible <$> _item w.

(** [workspaceFoldersIndex[key]] is truthy. *)
Definition kept (index : gmap string bool) (k : string) : Prop :=
  default false (index !! k) = true.

Global Instance kept_dec index k : Decision (kept index k).
Proof. unfold kept. apply _. Defined.

(** [workspaceFoldersIndex] after the first loop. *)
Definition index_after (folders : list WorkspaceFolder) (index : gmap string bool)
  : gmap string bool :=
  foldl (fun i f => <[folder_key f := true]> i) index folders.

(** What the loop of [deactivate] does to the entries [todo]: each
    client is disposed and leaves [undefined] in [promises], until a
    tombstone is met. *)
Fixpoint deactivate_from (todo : list (string * option Client))
         (st : Extension * list JSValue)
  : completion unit * (Extension * list JSValue) :=
  match todo with
  | [] => (Normal tt, st)
  | (_, None) :: _ => (Throw TypeError, st)
  | (_, Some c) :: rest =>
      deactivate_from rest
        ({| clients := clients st.1;
            trace := trace st.1 ++ dispose_effects c;
            commands := filter (fun id => id <> command_id c) (commands st.1) |},
         st.2 ++ [VUndefined])
  end.

(** Section 3 of the specification: every effect of disposing the client
    of root [k] comes before the removal of [k] from the mapping. *)
Definition disposal_precedes_removal (k : string) (c : Client) (t : list Effect)
  : Prop :=
  forall e, e ∈ dispose_effects c -> beforeb e (MapDelete k) t = true.

(** Section 7 of the specification: the failure handler itself never
    shows the output channel. *)
Definition handler_leaves_channel_hidden (c : LanguageClient) (message : string)
           (s : Extension) : Prop :=
  forall preserveFocus,
    ChannelShow (outputChannel c) preserveFocus
    ∉ drop (length (trace s)) (trace (initializationFailedHandler c message s).2).

(** ** More sample data *)

Definition autoDownload_config : WorkspaceConfiguration :=
  {| settings := {["autoDownloadGQL" := VBool true]} |}.

(** The registry after activation with roots [a] and [b]: a client for
    [a], a tombstone for [b]. *)
Definition sample_registry : Extension :=
  (createClientForWorkspaces (sample_env [folderA; folderB]) activation).2.

Definition registryA : Extension :=
  (createClientForWorkspaces (sample_env [folderA]) activation).2.

Definition sample_indicator : Indicator :=
  (constructor sample_getWorkspaceFolder sample_match clientA None fresh).2.

Definition sample_initialized : Indicator :=
  (deliver sample_getWorkspaceFolder sample_match
           (Initialized {| fileExtensions := ["graphql"; "gql"] |})
           sample_indicator).2.

(** The sample indicator is built, receives [evs] and then renders [st]. *)
Definition table_run (evs : list Event) (st : Status.t) : Prop :=
  exists w0 w,
    constructor sample_getWorkspaceFolder sample_match clientA None fresh
    = (Normal tt, w0)
    /\ shows Status.init w0
    /\ deliver_all sample_getWorkspaceFolder sample_match evs w0 = (Normal tt, w)
    /\ shows st w.

(** The visibility of [w] after the focus moves to [doc]. *)
Definition visible_on (w : Indicator) (doc : TextDocument) : option bool :=
  the_visible
    (deliver sample_getWorkspaceFolder sample_match
             (DidChangeActiveTextEditor (Some {| document := doc |})) w).2.

(** ** Definitions used by the further properties *)

(** The wrapper [createClientForWorkspace] builds for [folder] when the
    marker file is there. *)
Definition new_client (env : Env) (folder : WorkspaceFolder) : Client :=
  {| client :=
       {| run_args :=
            serverOptions_run_args (getConfiguration env (folder_key folder));
          debug_execArgv := ["--nolazy"; "--debug=6004"];
          workspaceFolder := folder_key folder;
          outputChannel := "Graphql-" +:+ name folder;
          initializeResult := None |} |}.

(** The result of [createClientForWorkspace]. *)
Definition created (env : Env) (folder : WorkspaceFolder) : option Client :=
  if findGQLConfigFile_silent env (fsPath (uri folder))
  then Some (new_client env folder) else None.

(** What the first loop of [createClientForWorkspaces] does for a folder
    that is not in the registry yet. *)
Definition creation_effects (env : Env) (folder : WorkspaceFolder) : list Effect :=
  FindConfigFile (fsPath (uri folder))
  :: (if findGQLConfigFile_silent env (fsPath (uri folder))
      then [CreateOutputChannel ("Graphql-" +:+ name folder);
            NewLanguageClient (folder_key folder)
              (serverOptions_run_args (getConfiguration env (folder_key folder)));
            NewStatusBarItem (folder_key folder);
            ClientStart (folder_key folder)]
      else [])
  ++ [ConsoleLog "adding client" (folder_key folder);
      MapSet (folder_key folder)
             (findGQLConfigFile_silent env (fsPath (uri folder)))].

(** The folders the first loop creates an entry for, given the keys that
    are [present] in the registry: the first folder of each absent key. *)
Fixpoint added_folders (folders : list WorkspaceFolder) (present : list string)
  : list WorkspaceFolder :=
  match folders with
  | [] => []
  | f :: rest =>
      if bool_decide (folder_key f ∈ present) then added_folders rest present
      else f :: added_folders rest (present ++ [folder_key f])
  end.

Definition entry (env : Env) (folder : WorkspaceFolder) : string * option Client :=
  (folder_key folder, created env folder).

(** What the second loop does for one entry of the registry. *)
Definition removal_effects (roots : list string) (e : string * option Client)
  : list Effect :=
  if bool_decide (e.1 ∈ roots) then []
  else [ConsoleLog "deleting client" e.1; MapDelete e.1]
       ++ from_option dispose_effects [] e.2.

Definition is_probe (e : Effect) : bool :=
  match e with
  | FindConfigFile _ => true
  | _ => false
  end.

(** The clients in front of the first tombstone. *)
Fixpoint live_prefix (m : list (string * option Client)) : list Client :=
  match m with
  | (_, Some c) :: m' => c :: live_prefix m'
  | _ => []
  end.

(** The events that set the status. *)
Definition is_status_event (ev : Event) : bool :=
  match ev with
  | DidChangeState _ _ | ReadyResolved | ReadyRejected => true
  | _ => false
  end.

Global Instance Disposable_eq_dec : EqDecision Disposable.
Proof. solve_decision. Defined.

(** A workspace in which every folder holds the marker file. *)
Definition marker_everywhere (folders : list WorkspaceFolder) : Env :=
  {| workspaceFolders := Some folders;
     getConfiguration := fun _ => {| settings := ∅ |};
     findGQLConfigFile_silent := fun _ => true;
     activeTextEditor := None;
     getWorkspaceFolder := sample_getWorkspaceFolder;
     languages_match := sample_match |}.

(** ** Command ids and the reconciliation *)

(** The id [_addOnClickToShowOutputChannel] registers for the client of
    [folder]: it is built from the folder's name, not from its URI. *)
Definition command_of (folder : WorkspaceFolder) : string :=
  "showOutputChannel-" +:+ ("Graphql-" +:+ name folder).

(** The ids the first loop of a reconciliation is going to register: one
    for each folder it adds that holds the marker file. *)
Definition commands_to_add (env : Env) (folders : list WorkspaceFolder)
           (present : list string) : list string :=
  command_of
    <$> filter (fun f => findGQLConfigFile_silent env (fsPath (uri f)) = true)
          (added_folders folders present).

Definition new_commands (env : Env) (s : Extension) : list string :=
  commands_to_add env (default [] (workspaceFolders env)) (clients s).*1.

(** No id the reconciliation is going to register is held already, and no
    two of them are the same. *)
Definition no_clash (env : Env) (s : Extension) : Prop :=
  NoDup (new_commands env s)
  /\ Forall (fun id => id ∉ commands s) (new_commands env s).

Global Instance no_clash_dec env s : Decision (no_clash env s).
Proof. unfold no_clash. apply _. Defined.

(** The ids left of [ids] when the indicators of [cs] are disposed. *)
Definition without_commands (cs : list Client) (ids : list string) : list string :=
  filter (fun id => id ∉ command_id <$> cs) ids.

(** Two folders with different URIs and the same name, each with a marker
    file in [marker_everywhere]. *)
Definition folderX : WorkspaceFolder :=
  {| uri := {| toString := "file:///x/app"; fsPath := "/x/app" |}; name := "app" |}.

Definition folderY : WorkspaceFolder :=
  {| uri := {| toString := "file:///y/app"; fsPath := "/y/app" |}; name := "app" |}.

(** A glob matcher for patterns of the form [**/*.{e1,...,en}], as a
    stand-in for [languages.match] in examples: the score is positive
    when the filter's scheme is [file] and the document ends in a dot
    followed by one of the alternatives. *)
Fixpoint split_commas (s acc : string) : list string :=
  match s with
  | EmptyString => [acc]
  | String a s' =>
      if bool_decide (String a "" = ",") then acc :: split_commas s' ""
      else split_commas s' (acc +:+ String a "")
  end.

Definition brace_alternatives (p : string) : option (list string) :=
  if String.prefix "**/*.{" p && ends_with "}" p
  then Some (split_commas
               (String.substring 6 (String.length p - 7) p) "")
  else None.

Definition glob_match (f : DocumentFilter) (doc : TextDocument) : nat :=
  match brace_alternatives (pattern f) with
  | Some alternatives =>
      if bool_decide (scheme f = "file")
         && existsb (fun e => ends_with ("." +:+ e) (doc_uri doc)) alternatives
      then 10 else 0
  | None => 0
  end.

(** The registry after activation with the two folders named [app]: the
    reconciliation has thrown at the second one. *)
Definition clash_registry : Extension :=
  (createClientForWorkspaces (marker_everywhere [folderX; folderY]) activation).2.

(** The sample indicator after its client has advertised [extensions],
    in an editor that matches with [glob_match], and its visibility when
    the focus moves to [doc]. *)
Definition initialized_with (extensions : list string) : Indicator :=
  (deliver sample_getWorkspaceFolder glob_match
           (Initialized {| fileExtensions := extensions |}) sample_indicator).2.

Definition visible_with (extensions : list string) (doc : TextDocument)
  : option bool :=
  the_visible
    (deliver sample_getWorkspaceFolder glob_match
             (DidChangeActiveTextEditor (Some {| document := doc |}))
             (initialized_with extensions)).2.
(** * Theorems *)

Set Warnings "-clear-no-such-hyp".

(** ** The status indicator *)

Ltac js_unfold :=
  cbv beta iota zeta
      delta [bind ret throw modify getState update_item the_item the_client].

Section IndicatorFacts.

Variable gwf : string -> option string.
Variable lm : DocumentFilter -> TextDocument -> nat.

Lemma _setStatus_live status w it :
  _item w = Some it ->
  _setStatus status w
  = (Normal tt,
     with_item (Some (set_ui ("$(" +:+ icon (STATUS_BAR_UI status) +:+ ") GQL")
                             (tooltip (STATUS_BAR_UI status))
                             (color (STATUS_BAR_UI status)) it)) w).
Proof. intros Hit. unfold _setStatus. js_unfold. rewrite Hit. reflexivity. Qed.

Lemma renders_set_ui status it :
  renders status
    (set_ui ("$(" +:+ icon (STATUS_BAR_UI status) +:+ ") GQL")
            (tooltip (STATUS_BAR_UI status)) (color (STATUS_BAR_UI status)) it).
Proof. repeat split. Qed.

Lemma renders_set_visible status b it :
  renders status it -> renders status (set_visible b it).
Proof. intros (? & ? & ?). repeat split; assumption. Qed.

Lemma _updateVisibility_live textEditor w it c :
  _item w = Some it -> _client w = Some c ->
  _updateVisibility gwf lm textEditor w
  = (Normal tt, with_item (Some (set_visible (visible_after gwf lm c textEditor) it)) w).
Proof.
  intros Hit Hc.
  unfold _updateVisibility, _checkDocumentInsideWorkspace, _getWorkspace,
    _hide, _show, visible_after, spec_visible.
  destruct textEditor as [ed|]; js_unfold; rewrite ?Hit, ?Hc; [|reflexivity].
  cbn [fmap option_fmap option_map].
  destruct (gwf (doc_uri (document ed))) as [folder|];
    js_unfold; rewrite ?Hit, ?Hc; [|reflexivity].
  destruct (decide (folder = workspaceFolder c)) as [->|Hne].
  - rewrite !bool_decide_eq_true_2 by reflexivity. rewrite Hc.
    destruct (initializeResult c) as [res|]; rewrite ?Hit; [|reflexivity].
    cbn [fmap option_fmap option_map].
    destruct (Nat.eqb _ 0); rewrite ?Hit; reflexivity.
  - rewrite !bool_decide_eq_false_2 by congruence. rewrite Hit. reflexivity.
Qed.

Lemma elem_of_RegCommand id (ids : list string) :
  RegCommand id ∈ RegCommand <$> ids <-> id ∈ ids.
Proof.
  rewrite list_elem_of_fmap. split.
  - intros (id' & [= ->] & Hin). exact Hin.
  - intros Hin. exists id. auto.
Qed.

(** The constructor in an editor that holds the command ids [ids]: it
    returns unless its own id is among them. *)
Lemma constructor_free ids c ed :
  "showOutputChannel-" +:+ outputChannel c ∉ ids ->
  constructor gwf lm c ed (editor_with ids)
  = (Normal tt,
     {| _item :=
          Some
            {| item_text := "$(sync) GQL";
               item_tooltip := Some "Graphql language server is initializing.";
               item_color := Some "white";
               item_command := Some ("showOutputChannel-" +:+ outputChannel c);
               item_visible := visible_after gwf lm c ed |};
        _client := Some c;
        _disposables :=
          [DItem;
           DRegistration (RegCommand ("showOutputChannel-" +:+ outputChannel c))];
        registrations :=
          (RegCommand <$> ids)
          ++ [RegCommand ("showOutputChannel-" +:+ outputChannel c);
              RegStateListener; RegReadyCallbacks; RegActiveEditorListener];
        released := false;
        effects := [] |}).
Proof.
  intros Hfree.
  unfold constructor, _addOnClickToShowOutputChannel, registerCommand,
    _registerStatusChangeListeners.
  js_unfold.
  cbn [with_item with_client push_disposable register _item _client
       registrations editor_with].
  rewrite bool_decide_eq_false_2 by (rewrite elem_of_RegCommand; exact Hfree).
  cbn [with_item with_client push_disposable register _item _client
       registrations].
  erewrite _setStatus_live by reflexivity.
  cbn [with_item with_client push_disposable register _item _client].
  erewrite _updateVisibility_live by reflexivity.
  cbv [with_item with_client push_disposable register _item _client
       _disposables registrations released effects set_visible set_ui
       set_command item_text item_tooltip item_color item_command
       item_visible createStatusBarItem].
  rewrite <- !app_assoc. reflexivity.
Qed.

(** When its id is taken the constructor throws out of
    [commands.registerCommand]: the item exists by then, nothing is
    registered. *)
Lemma constructor_taken ids c ed :
  "showOutputChannel-" +:+ outputChannel c ∈ ids ->
  constructor gwf lm c ed (editor_with ids)
  = (Throw (CommandExists ("showOutputChannel-" +:+ outputChannel c)),
     {| _item := Some createStatusBarItem;
        _client := Some c;
        _disposables := [DItem];
        registrations := RegCommand <$> ids;
        released := false;
        effects := [] |}).
Proof.
  intros Htaken.
  unfold constructor, _addOnClickToShowOutputChannel, registerCommand.
  js_unfold.
  cbn [with_item with_client push_disposable register _item _client
       registrations editor_with].
  rewrite bool_decide_eq_true_2 by (rewrite elem_of_RegCommand; exact Htaken).
  reflexivity.
Qed.

(** The constructor in an editor without commands never throws; this is
    the state it leaves. *)
Lemma constructor_eq c ed :
  constructor gwf lm c ed fresh
  = (Normal tt,
     {| _item :=
          Some
            {| item_text := "$(sync) GQL";
               item_tooltip := Some "Graphql language server is initializing.";
               item_color := Some "white";
               item_command := Some ("showOutputChannel-" +:+ outputChannel c);
               item_visible := visible_after gwf lm c ed |};
        _client := Some c;
        _disposables :=
          [DItem;
           DRegistration (RegCommand ("showOutputChannel-" +:+ outputChannel c))];
        registrations :=
          [RegCommand ("showOutputChannel-" +:+ outputChannel c);
           RegStateListener; RegReadyCallbacks; RegActiveEditorListener];
        released := false;
        effects := [] |}).
Proof. apply (constructor_free [] c ed), not_elem_of_nil. Qed.

Lemma constructor_live c ed :
  live Initializing (constructor gwf lm c ed fresh).2.
Proof.
  rewrite constructor_eq. cbn [snd]. repeat split.
  - eexists. split; [reflexivity|]. repeat split.
  - eexists; reflexivity.
  - cbn. set_solver.
  - cbn. set_solver.
Qed.

Lemma when_registered_true r h w :
  r ∈ registrations w -> when_registered r h w = h w.
Proof.
  intros Hr. unfold when_registered. js_unfold.
  rewrite bool_decide_eq_true_2 by assumption. reflexivity.
Qed.

Lemma when_registered_false r h w :
  r ∉ registrations w -> when_registered r h w = (Normal tt, w).
Proof.
  intros Hr. unfold when_registered. js_unfold.
  rewrite bool_decide_eq_false_2 by assumption. reflexivity.
Qed.

Lemma set_status_live st st' status w :
  live st w -> status = status_of_state st' ->
  exists w', _setStatus status w = (Normal tt, w') /\ live st' w'.
Proof.
  intros ((it & Hit & _) & Hc & Hs & Hr) ->.
  eexists. split; [apply _setStatus_live; eassumption|].
  repeat split; try assumption.
  eexists. split; [reflexivity|]. apply renders_set_ui.
Qed.

Lemma deliver_live st ev w :
  live st w -> ev <> Dispose ->
  exists w', deliver gwf lm ev w = (Normal tt, w')
             /\ live (spec_transition st ev) w'.
Proof.
  intros Hlive Hev.
  pose proof Hlive as ((it & Hit & Hrend) & (c & Hc) & Hs & Hr).
  destruct ev as [o n| | |ed| |res|]; cbn [deliver spec_transition].
  - rewrite when_registered_true by assumption.
    destruct n; cbn [onDidChangeState_handler].
    + eapply set_status_live; [eassumption|reflexivity].
    + eapply set_status_live; [eassumption|reflexivity].
    + eexists. split; [reflexivity|assumption].
  - rewrite when_registered_true by assumption.
    eapply set_status_live; [eassumption|reflexivity].
  - rewrite when_registered_true by assumption.
    eapply set_status_live; [eassumption|reflexivity].
  - destruct (decide (RegActiveEditorListener ∈ registrations w)).
    + rewrite when_registered_true by assumption.
      erewrite _updateVisibility_live by eassumption.
      eexists. split; [reflexivity|]. repeat split; try assumption.
      * eexists. split; [reflexivity|]. apply renders_set_visible, Hrend.
      * eexists; eassumption.
    + rewrite when_registered_false by assumption.
      eexists. split; [reflexivity|assumption].
  - js_unfold. rewrite Hit.
    destruct (item_command it) as [cmd|];
      [|eexists; split; [reflexivity|assumption]].
    destruct (decide (RegCommand cmd ∈ registrations w)).
    + rewrite when_registered_true by assumption.
      unfold showOutputChannel_command. js_unfold. rewrite Hc.
      eexists. split; [reflexivity|]. repeat split; try assumption.
      * exists it. split; assumption.
      * eexists; eassumption.
    + rewrite when_registered_false by assumption.
      eexists. split; [reflexivity|assumption].
  - js_unfold. eexists. split; [reflexivity|]. repeat split; try assumption.
    + exists it. split; assumption.
    + cbn. rewrite Hc. eexists; reflexivity.
  - congruence.
Qed.

Lemma deliver_all_live evs : forall st w,
  live st w -> Dispose ∉ evs ->
  exists w', deliver_all gwf lm evs w = (Normal tt, w')
             /\ live (foldl spec_transition st evs) w'.
Proof.
  induction evs as [|ev evs IH]; intros st w Hlive Hevs.
  - eexists. split; [reflexivity|assumption].
  - cbn [deliver_all foldl].
    destruct (deliver_live st ev w Hlive) as (w1 & Hw1 & Hlive1);
      [set_solver|].
    destruct (IH (spec_transition st ev) w1 Hlive1) as (w2 & Hw2 & Hlive2);
      [set_solver|].
    exists w2. split; [|assumption].
    unfold bind. rewrite Hw1. exact Hw2.
Qed.

End IndicatorFacts.

(** ** The registry *)

Lemma filter_ext_elem {A} (P1 P2 : A -> Prop)
      `{!forall x, Decision (P1 x), !forall x, Decision (P2 x)} (l : list A) :
  (forall x, x ∈ l -> P1 x <-> P2 x) -> filter P1 l = filter P2 l.
Proof.
  induction l as [|a l IH]; intros Hiff; [reflexivity|].
  rewrite !filter_cons.
  rewrite IH by (intros x Hx; apply Hiff; set_solver).
  apply decide_ext, Hiff. set_solver.
Qed.

Lemma filter_all {A} (P : A -> Prop) `{!forall x, Decision (P x)} (l : list A) :
  (forall x, x ∈ l -> P x) -> filter P l = l.
Proof.
  induction l as [|a l IH]; intros HP; [reflexivity|].
  rewrite filter_cons_True by (apply HP; set_solver).
  f_equal. apply IH. intros x Hx. apply HP. set_solver.
Qed.

Lemma kept_index_after folders : forall index k,
  kept (index_after folders index) k
  <-> k ∈ folder_key <$> folders \/ kept index k.
Proof.
  induction folders as [|f folders IH]; intros index k; cbn [index_after foldl fmap list_fmap].
  - set_solver.
  - unfold index_after in IH. rewrite IH. unfold kept.
    destruct (decide (folder_key f = k)) as [->|Hne].
    + rewrite lookup_insert_eq. cbn. set_solver.
    + rewrite lookup_insert_ne by assumption. set_solver.
Qed.

Lemma kept_index_roots folders k :
  kept (index_after folders ∅) k <-> k ∈ folder_key <$> folders.
Proof.
  rewrite kept_index_after. unfold kept. rewrite lookup_empty. cbn.
  split; [intros [?|?]; [assumption|discriminate]|auto].
Qed.

Lemma has_true {V} k (m : list (string * V)) :
  JSMap.has k m = true <-> k ∈ m.*1.
Proof. unfold JSMap.has. apply bool_decide_eq_true. Qed.

Lemma has_false {V} k (m : list (string * V)) :
  JSMap.has k m = false <-> k ∉ m.*1.
Proof. unfold JSMap.has. apply bool_decide_eq_false. Qed.

Lemma Client_dispose_eq c s :
  Client_dispose c s
  = (Normal tt,
     {| clients := clients s; trace := trace s ++ dispose_effects c;
        commands := filter (fun id => id <> command_id c) (commands s) |}).
Proof.
  unfold Client_dispose, command_dispose, log, dispose_effects, bind, modify. cbn.
  rewrite <- !app_assoc. reflexivity.
Qed.

Lemma registered_commands_app ids (c : LanguageClient) :
  omap (fun r => match r with RegCommand id => Some id | _ => None end)
       ((RegCommand <$> ids)
        ++ [RegCommand ("showOutputChannel-" +:+ outputChannel c);
            RegStateListener; RegReadyCallbacks; RegActiveEditorListener])
  = ids ++ ["showOutputChannel-" +:+ outputChannel c].
Proof.
  rewrite omap_app. f_equal.
  induction ids as [|id ids IH]; [reflexivity|]. cbn. f_equal. exact IH.
Qed.

Lemma new_ClientStatusBarItem_free env c s :
  "showOutputChannel-" +:+ outputChannel c ∉ commands s ->
  new_ClientStatusBarItem env c s
  = (Normal tt,
     {| clients := clients s; trace := trace s;
        commands := commands s ++ ["showOutputChannel-" +:+ outputChannel c] |}).
Proof.
  intros Hfree. unfold new_ClientStatusBarItem.
  rewrite constructor_free by exact Hfree.
  unfold registered_commands. cbn [registrations].
  rewrite registered_commands_app. reflexivity.
Qed.

Lemma new_ClientStatusBarItem_taken env c s :
  "showOutputChannel-" +:+ outputChannel c ∈ commands s ->
  new_ClientStatusBarItem env c s
  = (Throw (CommandExists ("showOutputChannel-" +:+ outputChannel c)), s).
Proof.
  intros Htaken. unfold new_ClientStatusBarItem.
  rewrite constructor_taken by exact Htaken. reflexivity.
Qed.

(** The three ways [createClientForWorkspace] ends. *)
Lemma createClientForWorkspace_none env folder s :
  findGQLConfigFile_silent env (fsPath (uri folder)) = false ->
  createClientForWorkspace env folder s
  = (Normal None,
     {| clients := clients s;
        trace := trace s ++ [FindConfigFile (fsPath (uri folder))];
        commands := commands s |}).
Proof.
  intros Hm. unfold createClientForWorkspace, log, bind, modify, ret.
  rewrite Hm. reflexivity.
Qed.

Lemma createClientForWorkspace_some env folder s :
  findGQLConfigFile_silent env (fsPath (uri folder)) = true ->
  command_of folder ∉ commands s ->
  createClientForWorkspace env folder s
  = (Normal (Some (new_client env folder)),
     {| clients := clients s;
        trace := trace s
                 ++ [FindConfigFile (fsPath (uri folder));
                     CreateOutputChannel ("Graphql-" +:+ name folder);
                     NewLanguageClient (folder_key folder)
                       (serverOptions_run_args
                          (getConfiguration env (folder_key folder)));
                     NewStatusBarItem (folder_key folder);
                     ClientStart (folder_key folder)];
        commands := commands s ++ [command_of folder] |}).
Proof.
  intros Hm Hfree. unfold createClientForWorkspace. rewrite Hm. cbn [negb].
  unfold bind at 1. unfold log at 1, modify at 1.
  unfold bind at 1. unfold log at 1, modify at 1.
  unfold bind at 1. unfold log at 1, modify at 1.
  unfold bind at 1. unfold log at 1, modify at 1.
  unfold bind at 1.
  rewrite new_ClientStatusBarItem_free by exact Hfree.
  unfold bind, log, modify, ret. cbn [clients trace commands outputChannel run_args].
  rewrite <- !app_assoc. reflexivity.
Qed.

Lemma createClientForWorkspace_clash env folder s :
  findGQLConfigFile_silent env (fsPath (uri folder)) = true ->
  command_of folder ∈ commands s ->
  createClientForWorkspace env folder s
  = (Throw (CommandExists (command_of folder)),
     {| clients := clients s;
        trace := trace s
                 ++ [FindConfigFile (fsPath (uri folder));
                     CreateOutputChannel ("Graphql-" +:+ name folder);
                     NewLanguageClient (folder_key folder)
                       (serverOptions_run_args
                          (getConfiguration env (folder_key folder)));
                     NewStatusBarItem (folder_key folder)];
        commands := commands s |}).
Proof.
  intros Hm Htaken. unfold createClientForWorkspace. rewrite Hm. cbn [negb].
  unfold bind at 1. unfold log at 1, modify at 1.
  unfold bind at 1. unfold log at 1, modify at 1.
  unfold bind at 1. unfold log at 1, modify at 1.
  unfold bind at 1. unfold log at 1, modify at 1.
  unfold bind at 1.
  rewrite new_ClientStatusBarItem_taken by exact Htaken.
  cbn [clients trace commands outputChannel run_args].
  rewrite <- !app_assoc. reflexivity.
Qed.

(** Whatever happens, [createClientForWorkspace] leaves the map alone and
    only adds to the trace; what it returns is [created]. *)
Lemma createClientForWorkspace_cases env folder s :
  exists comp t ids,
    createClientForWorkspace env folder s
    = (comp, {| clients := clients s; trace := trace s ++ t; commands := ids |})
    /\ (comp = Normal (created env folder) \/ exists e, comp = Throw e).
Proof.
  unfold created.
  destruct (findGQLConfigFile_silent env (fsPath (uri folder))) eqn:Hm.
  - destruct (decide (command_of folder ∈ commands s)).
    + rewrite createClientForWorkspace_clash by assumption.
      eexists _, _, _. split; [reflexivity|]. right. eauto.
    + rewrite createClientForWorkspace_some by assumption.
      eexists _, _, _. split; [reflexivity|]. left. reflexivity.
  - rewrite createClientForWorkspace_none by assumption.
    eexists _, _, _. split; [reflexivity|]. left. reflexivity.
Qed.

(** The first loop, whether it returns or throws: the entries it has
    added are those of the first folders it had to add. *)
Lemma add_folders_cases env folders : forall index s,
  exists comp l rest t ids,
    add_folders env folders index s
    = (comp,
       {| clients := clients s ++ (entry env <$> l); trace := trace s ++ t;
          commands := ids |})
    /\ added_folders folders (clients s).*1 = l ++ rest
    /\ (comp = Normal (index_after folders index) \/ exists e, comp = Throw e).
Proof.
  induction folders as [|f folders IH]; intros index s.
  - exists (Normal index), [], [], [], (commands s). cbn. rewrite !app_nil_r.
    destruct s. auto.
  - cbn [add_folders added_folders]. unfold bind at 1. unfold bind at 1.
    unfold getState at 1. fold (folder_key f). unfold JSMap.has at 1.
    destruct (bool_decide (folder_key f ∈ (clients s).*1)) eqn:Hhas.
    + cbn [ret]. apply IH.
    + unfold bind at 1.
      destruct (createClientForWorkspace_cases env f s)
        as (comp & t1 & ids1 & -> & [->|[e ->]]).
      * unfold bind at 1. unfold log, clients_set, modify.
        cbn [clients trace commands]. unfold JSMap.set, JSMap.has.
        rewrite Hhas.
        match goal with
        | |- context [add_folders env folders ?i ?s1] =>
            destruct (IH i s1) as (comp & l & rest & t & ids & Heq & Hadded & Hcomp)
        end.
        cbn [clients trace commands] in *.
        rewrite fmap_app in Hadded. cbn [fmap list_fmap fst] in Hadded.
        exists comp, (f :: l), rest,
          (t1 ++ [ConsoleLog "adding client" (folder_key f);
                  MapSet (folder_key f) (bool_decide (is_Some (created env f)))]
              ++ t), ids.
        split; [|split].
        -- rewrite Heq. cbn [fmap list_fmap]. unfold entry at 2.
           rewrite <- !app_assoc. reflexivity.
        -- rewrite Hadded. reflexivity.
        -- exact Hcomp.
      * exists (Throw e), [], (f :: added_folders folders ((clients s).*1 ++ [folder_key f])),
          t1, ids1.
        cbn. rewrite app_nil_r. split; [reflexivity|]. split; [reflexivity|].
        right. eauto.
Qed.

Lemma add_folders_noop env folders : forall index s,
  (forall k, k ∈ folder_key <$> folders -> k ∈ (clients s).*1) ->
  add_folders env folders index s = (Normal (index_after folders index), s).
Proof.
  induction folders as [|f folders IH]; intros index s Hall; [reflexivity|].
  cbn [add_folders]. unfold bind at 1. unfold bind at 1. unfold getState at 1.
  assert (JSMap.has (toString (uri f)) (clients s) = true) as ->.
  { apply has_true, Hall. cbn. set_solver. }
  cbn [ret]. apply IH. intros k Hk. apply Hall. cbn. set_solver.
Qed.

Lemma remove_client_keep index v k s :
  kept index k -> remove_client index v k s = (Normal tt, s).
Proof. unfold kept, remove_client. intros ->. reflexivity. Qed.

Lemma remove_client_drop index v k s :
  ~ kept index k ->
  remove_client index v k s
  = (Normal tt,
     {| clients := JSMap.delete k (clients s);
        trace := trace s
                 ++ [ConsoleLog "deleting client" k; MapDelete k]
                 ++ from_option dispose_effects [] v;
        commands := from_option
                      (fun c => filter (fun id => id <> command_id c) (commands s))
                      (commands s) v |}).
Proof.
  unfold kept, remove_client. intros Hk.
  apply not_true_is_false in Hk. rewrite Hk. cbn [negb].
  unfold bind, log, clients_delete, modify. cbn [clients trace commands].
  destruct v as [c|]; cbn [from_option].
  - rewrite Client_dispose_eq. cbn [clients trace commands].
    rewrite <- !app_assoc. reflexivity.
  - cbn. rewrite <- !app_assoc. reflexivity.
Qed.

Lemma forEach_remove_spec index todo : forall s,
  exists t ids,
    JSMap.forEach_from clients (remove_client index) todo s
    = (Normal tt,
       {| clients := filter (fun e => kept index e.1 \/ e.1 ∉ todo.*1) (clients s);
          trace := trace s ++ t; commands := ids |}).
Proof.
  induction todo as [|[k v] todo IH]; intros s.
  - exists [], (commands s). cbn. rewrite app_nil_r.
    rewrite filter_all by (intros; right; set_solver). destruct s; reflexivity.
  - cbn [JSMap.forEach_from]. unfold bind at 1. unfold bind at 1. unfold getState at 1.
    destruct (JSMap.has k (clients s)) eqn:Hhas.
    + destruct (decide (kept index k)) as [Hk|Hk].
      * rewrite remove_client_keep by assumption.
        destruct (IH s) as (t & ids & ->). exists t, ids. do 2 f_equal.
        apply filter_ext_elem. intros [k' v'] _. cbn.
        split; [intros [?|?]; [auto|]|intros [?|?]; [auto|right; set_solver]].
        destruct (decide (k' = k)) as [->|?]; [auto|right; set_solver].
      * rewrite remove_client_drop by assumption.
        match goal with
        | |- context [JSMap.forEach_from _ _ todo ?s1] =>
            destruct (IH s1) as (t & ids & ->)
        end.
        cbn [clients trace commands]. eexists _, _. rewrite <- !app_assoc.
        do 2 f_equal.
        unfold JSMap.delete. rewrite list_filter_filter.
        apply list_filter_iff. intros [k' v']. cbn.
        split.
        { intros [[?|?] ?]; [auto|right; set_solver]. }
        { intros [?|?]; [split; [auto|congruence]|set_solver]. }
    + cbn [ret]. destruct (IH s) as (t & ids & ->). exists t, ids. do 2 f_equal.
      apply has_false in Hhas.
      apply filter_ext_elem. intros [k' v'] Hin. cbn.
      assert (k' <> k).
      { intros ->. apply Hhas. apply list_elem_of_fmap. exists (k, v'). auto. }
      set_solver.
Qed.

Lemma forEach_remove_noop index todo : forall s,
  (forall e, e ∈ todo -> kept index e.1) ->
  JSMap.forEach_from clients (remove_client index) todo s = (Normal tt, s).
Proof.
  induction todo as [|[k v] todo IH]; intros s Hkept; [reflexivity|].
  cbn [JSMap.forEach_from]. unfold bind at 1. unfold bind at 1. unfold getState at 1.
  assert (kept index k) as Hk by (apply (Hkept (k, v)); set_solver).
  destruct (JSMap.has k (clients s)); cbn [ret];
    rewrite ?remove_client_keep by assumption;
    apply IH; intros e He; apply Hkept; set_solver.
Qed.

Lemma added_folders_sub folders : forall present f,
  f ∈ added_folders folders present -> f ∈ folders /\ folder_key f ∉ present.
Proof.
  induction folders as [|g folders IH]; intros present f Hf; [set_solver|].
  cbn [added_folders] in Hf. case_bool_decide as Hg.
  - apply IH in Hf as [? ?]. split; [set_solver|assumption].
  - apply elem_of_cons in Hf as [->|Hf]; [split; [set_solver|assumption]|].
    apply IH in Hf as [? Hn]. split; [set_solver|]. set_solver.
Qed.

Lemma added_folders_keys folders : forall present k,
  k ∈ folder_key <$> added_folders folders present
  <-> k ∈ folder_key <$> folders /\ k ∉ present.
Proof.
  induction folders as [|g folders IH]; intros present k; [set_solver|].
  cbn [added_folders]. case_bool_decide as Hg.
  - rewrite IH. cbn. rewrite elem_of_cons. split; [tauto|].
    intros [[->|?] ?]; [contradiction|tauto].
  - cbn. rewrite !elem_of_cons, IH, elem_of_app, list_elem_of_singleton.
    split.
    + intros [->|[? Hn]]; [tauto|]. split; [tauto|]. tauto.
    + intros [[->|?] ?]; [tauto|].
      destruct (decide (k = folder_key g)); [tauto|]. right. tauto.
Qed.

Lemma added_folders_NoDup folders : forall present,
  NoDup (folder_key <$> added_folders folders present).
Proof.
  induction folders as [|g folders IH]; intros present; [constructor|].
  cbn [added_folders]. case_bool_decide as Hg; [apply IH|].
  cbn. constructor; [|apply IH].
  rewrite added_folders_keys. set_solver.
Qed.

(** With distinct folder keys, every folder whose key is absent is added. *)
Lemma added_folders_elem folders : forall present f,
  NoDup (folder_key <$> folders) -> f ∈ folders -> folder_key f ∉ present ->
  f ∈ added_folders folders present.
Proof.
  induction folders as [|g folders IH]; intros present f Hnd Hf Hn; [set_solver|].
  cbn in Hnd. apply NoDup_cons in Hnd as [Hg Hnd].
  cbn [added_folders]. apply elem_of_cons in Hf as [->|Hf].
  - rewrite bool_decide_eq_false_2 by assumption. set_solver.
  - assert (folder_key f <> folder_key g) as Hne.
    { intros Heq. apply Hg. rewrite <- Heq. apply list_elem_of_fmap_2, Hf. }
    case_bool_decide; [apply IH; assumption|].
    apply elem_of_cons. right. apply IH; [assumption..|]. set_solver.
Qed.

Lemma entry_keys env (l : list WorkspaceFolder) :
  (entry env <$> l).*1 = folder_key <$> l.
Proof. rewrite <- list_fmap_compose. reflexivity. Qed.

(** One reconciliation, whether it returns or throws. When the first loop
    throws the second one does not run. *)
Lemma createClientForWorkspaces_cases env s :
  exists comp l rest t ids,
    added_folders (default [] (workspaceFolders env)) (clients s).*1 = l ++ rest
    /\ (createClientForWorkspaces env s
        = (comp,
           {| clients := clients s ++ (entry env <$> l); trace := trace s ++ t;
              commands := ids |})
        /\ (exists e, comp = Throw e)
        \/ createClientForWorkspaces env s
           = (comp,
              {| clients := filter (fun e => e.1 ∈ root_keys env)
                                   (clients s ++ (entry env <$> l));
                 trace := trace s ++ t; commands := ids |})
           /\ comp = Normal tt).
Proof.
  unfold createClientForWorkspaces.
  destruct (add_folders_cases env (default [] (workspaceFolders env)) ∅ s)
    as (comp & l & rest & t & ids & Hadd & Hadded & [->|[e ->]]).
  - unfold bind. rewrite Hadd. unfold JSMap.forEach, bind, getState.
    cbn [clients].
    match goal with
    | |- context [JSMap.forEach_from _ (remove_client ?i) ?todo ?s1] =>
        destruct (forEach_remove_spec i todo s1) as (t' & ids' & ->)
    end.
    cbn [clients trace commands].
    exists (Normal tt), l, rest, (t ++ t'), ids'. split; [exact Hadded|].
    right. split; [|reflexivity]. rewrite <- app_assoc. do 2 f_equal.
    apply filter_ext_elem. intros [k v] Hin. cbn. rewrite kept_index_roots.
    unfold root_keys.
    split; [intros [?|Hk]; [assumption|]|auto].
    exfalso. apply Hk. apply list_elem_of_fmap. exists (k, v). auto.
  - unfold bind. rewrite Hadd.
    exists (Throw e), l, rest, t, ids. split; [exact Hadded|].
    left. split; [reflexivity|eauto].
Qed.

Lemma creation_effects_marker env f :
  findGQLConfigFile_silent env (fsPath (uri f)) = true ->
  creation_effects env f
  = [FindConfigFile (fsPath (uri f));
     CreateOutputChannel ("Graphql-" +:+ name f);
     NewLanguageClient (folder_key f)
       (serverOptions_run_args (getConfiguration env (folder_key f)));
     NewStatusBarItem (folder_key f); ClientStart (folder_key f);
     ConsoleLog "adding client" (folder_key f);
     MapSet (folder_key f) true].
Proof. intros Hm. unfold creation_effects. rewrite Hm. reflexivity. Qed.

Lemma creation_effects_no_marker env f :
  findGQLConfigFile_silent env (fsPath (uri f)) = false ->
  creation_effects env f
  = [FindConfigFile (fsPath (uri f));
     ConsoleLog "adding client" (folder_key f);
     MapSet (folder_key f) false].
Proof. intros Hm. unfold creation_effects. rewrite Hm. reflexivity. Qed.

(** The first loop when no command id clashes: it returns, and this is
    the state it leaves. *)
Lemma add_folders_exact env folders : forall index s,
  NoDup (commands_to_add env folders (clients s).*1) ->
  Forall (fun id => id ∉ commands s) (commands_to_add env folders (clients s).*1) ->
  add_folders env folders index s
  = (Normal (index_after folders index),
     {| clients := clients s ++ (entry env <$> added_folders folders (clients s).*1);
        trace := trace s
                 ++ concat (creation_effects env
                              <$> added_folders folders (clients s).*1);
        commands := commands s ++ commands_to_add env folders (clients s).*1 |}).
Proof.
  induction folders as [|f folders IH]; intros index s Hnd Hfree.
  - cbn. rewrite !app_nil_r. destruct s; reflexivity.
  - unfold commands_to_add in Hnd, Hfree |- *.
    cbn [add_folders added_folders] in *. unfold bind at 1. unfold bind at 1.
    unfold getState at 1. fold (folder_key f). unfold JSMap.has at 1.
    destruct (bool_decide (folder_key f ∈ (clients s).*1)) eqn:Hhas.
    + cbn [ret]. rewrite IH by assumption. reflexivity.
    + rewrite filter_cons in Hnd, Hfree |- *.
      unfold bind at 1.
      destruct (findGQLConfigFile_silent env (fsPath (uri f))) eqn:Hm.
      * rewrite decide_True in Hnd, Hfree |- * by reflexivity.
        cbn [fmap list_fmap] in Hnd, Hfree |- *.
        apply NoDup_cons in Hnd as [Hf Hnd].
        apply Forall_cons in Hfree as [Hf' Hfree].
        rewrite createClientForWorkspace_some by assumption.
        unfold bind at 1. unfold log, clients_set, modify.
        cbn [clients trace commands]. unfold JSMap.set, JSMap.has.
        rewrite Hhas. rewrite IH; cbn [clients trace commands];
          rewrite ?fmap_app; cbn [fmap list_fmap fst].
        -- change (entry env f) with (folder_key f, created env f).
           unfold created at 1. rewrite (creation_effects_marker env f Hm), Hm.
           cbn [concat app]. rewrite <- !app_assoc. reflexivity.
        -- exact Hnd.
        -- apply Forall_forall. intros id Hid.
           rewrite Forall_forall in Hfree.
           rewrite elem_of_app, list_elem_of_singleton.
           intros [Hin| ->]; [exact (Hfree id Hid Hin)|exact (Hf Hid)].
      * rewrite decide_False in Hnd, Hfree |- * by discriminate.
        rewrite createClientForWorkspace_none by assumption.
        unfold bind at 1. unfold log, clients_set, modify.
        cbn [clients trace commands]. unfold JSMap.set, JSMap.has.
        rewrite Hhas. rewrite IH; cbn [clients trace commands];
          rewrite ?fmap_app; cbn [fmap list_fmap fst]; [|assumption..].
        change (entry env f) with (folder_key f, created env f).
        unfold created at 1. rewrite (creation_effects_no_marker env f Hm), Hm.
        cbn [concat app]. rewrite <- !app_assoc. reflexivity.
Qed.

(** One reconciliation without a clash: it returns, and this is the
    registry it leaves. *)
Lemma createClientForWorkspaces_clients env s :
  no_clash env s ->
  exists s',
    createClientForWorkspaces env s = (Normal tt, s')
    /\ clients s'
       = filter (fun e => e.1 ∈ root_keys env) (clients s)
         ++ (entry env
               <$> added_folders (default [] (workspaceFolders env)) (clients s).*1).
Proof.
  intros [Hnd Hfree].
  unfold createClientForWorkspaces, bind. rewrite add_folders_exact by assumption.
  unfold JSMap.forEach, bind, getState. cbn [clients].
  match goal with
  | |- context [JSMap.forEach_from _ (remove_client ?i) ?todo ?s1] =>
      destruct (forEach_remove_spec i todo s1) as (t' & ids' & ->)
  end.
  eexists. split; [reflexivity|]. cbn [clients].
  rewrite (filter_ext_elem _ (fun e => e.1 ∈ root_keys env)).
  - rewrite filter_app. f_equal. apply filter_all.
    intros e He. apply list_elem_of_fmap in He as (f & -> & Hf).
    cbn. apply added_folders_sub in Hf as [Hf _].
    unfold root_keys. apply list_elem_of_fmap_2, Hf.
  - intros [k v] Hin. cbn. rewrite kept_index_roots. unfold root_keys.
    split; [intros [?|Hk]; [assumption|]|auto].
    exfalso. apply Hk. apply list_elem_of_fmap. exists (k, v). auto.
Qed.

Lemma forEach_remove_trace_exact index todo : forall s,
  NoDup todo.*1 -> (forall e, e ∈ todo -> e.1 ∈ (clients s).*1) ->
  trace (JSMap.forEach_from clients (remove_client index) todo s).2
  = trace s
    ++ concat ((fun e => if decide (kept index e.1) then []
                         else [ConsoleLog "deleting client" e.1; MapDelete e.1]
                              ++ from_option dispose_effects [] e.2) <$> todo).
Proof.
  induction todo as [|[k v] todo IH]; intros s Hnd Hin.
  - cbn. rewrite app_nil_r. reflexivity.
  - cbn in Hnd. apply NoDup_cons in Hnd as [Hk Hnd].
    cbn [JSMap.forEach_from]. unfold bind at 1. unfold bind at 1.
    unfold getState at 1.
    rewrite (proj2 (has_true k (clients s))) by (apply (Hin (k, v)); set_solver).
    cbn [fmap list_fmap concat fst snd]. destruct (decide (kept index k)) as [Hkept|Hkept].
    + rewrite remove_client_keep by assumption.
      rewrite IH; [reflexivity|assumption|]. intros e He. apply Hin. set_solver.
    + rewrite remove_client_drop by assumption.
      rewrite IH; [|assumption|].
      * cbn [trace]. rewrite <- !app_assoc. reflexivity.
      * intros e He. cbn [clients].
        assert (e.1 <> k) as Hne.
        { intros Heq. apply Hk. rewrite <- Heq. apply list_elem_of_fmap_2, He. }
        assert (e.1 ∈ (clients s).*1) as Hes by (apply Hin; set_solver).
        apply list_elem_of_fmap in Hes as ([k' v'] & Hk' & Hes). cbn in Hk'.
        apply list_elem_of_fmap. exists (k', v'). split; [assumption|].
        unfold JSMap.delete. apply list_elem_of_filter. cbn. split; [congruence|assumption].
Qed.

Lemma concat_fmap_nil {A B} (f : A -> list B) (l : list A) :
  (forall x, x ∈ l -> f x = []) -> concat (f <$> l) = [].
Proof.
  induction l as [|x l IH]; intros Hf; [reflexivity|].
  cbn. rewrite Hf by set_solver. apply IH. intros y Hy. apply Hf. set_solver.
Qed.

Lemma added_keys_fresh env folders (m : list (string * option Client)) :
  NoDup m.*1 -> NoDup (m ++ (entry env <$> added_folders folders m.*1)).*1.
Proof.
  intros Hnd. rewrite fmap_app, entry_keys. apply NoDup_app.
  split; [assumption|]. split; [|apply added_folders_NoDup].
  intros k Hk Hk'. apply added_folders_keys in Hk' as [_ Hk']. exact (Hk' Hk).
Qed.

(** One reconciliation without a clash of a registry with distinct keys:
    its effects. *)
Lemma createClientForWorkspaces_trace env s :
  no_clash env s -> NoDup (clients s).*1 ->
  trace (createClientForWorkspaces env s).2
  = trace s
    ++ concat (creation_effects env
                 <$> added_folders (default [] (workspaceFolders env)) (clients s).*1)
    ++ concat (removal_effects (root_keys env) <$> clients s).
Proof.
  intros [Hnc Hfree] Hnd.
  unfold createClientForWorkspaces, bind. rewrite add_folders_exact by assumption.
  unfold JSMap.forEach, bind, getState. cbn [clients].
  set (folders := default [] (workspaceFolders env)).
  assert (forall k, kept (index_after folders ∅) k <-> k ∈ root_keys env) as Hkept.
  { intros k. apply kept_index_roots. }
  rewrite forEach_remove_trace_exact.
  - cbn [trace]. rewrite <- app_assoc. do 2 f_equal.
    rewrite fmap_app, concat_app.
    rewrite <- (app_nil_r (concat (removal_effects _ <$> _))). f_equal.
    + f_equal. apply list_fmap_ext. intros i e _. unfold removal_effects.
      destruct (decide (kept (index_after folders ∅) e.1)) as [Hk|Hk].
      * rewrite bool_decide_eq_true_2 by (apply Hkept, Hk). reflexivity.
      * rewrite bool_decide_eq_false_2 by (rewrite <- Hkept; exact Hk). reflexivity.
    + apply concat_fmap_nil. intros e He.
      apply list_elem_of_fmap in He as (f & -> & Hf).
      apply added_folders_sub in Hf as [Hf _].
      rewrite decide_True; [reflexivity|].
      apply Hkept. unfold root_keys, entry. cbn [fst].
      apply list_elem_of_fmap_2, Hf.
  - cbn [clients]. apply added_keys_fresh, Hnd.
  - intros e He. cbn [clients]. apply list_elem_of_fmap_2, He.
Qed.

Lemma filter_keys_sub {V} (P : string * V -> Prop) `{!forall x, Decision (P x)}
      (m : list (string * V)) k :
  k ∈ (filter P m).*1 -> k ∈ m.*1.
Proof.
  intros Hk. apply list_elem_of_fmap in Hk as (e & -> & He).
  apply list_elem_of_filter in He as [_ He]. apply list_elem_of_fmap_2, He.
Qed.

Lemma filter_keys_NoDup {V} (P : string * V -> Prop) `{!forall x, Decision (P x)}
      (m : list (string * V)) :
  NoDup m.*1 -> NoDup (filter P m).*1.
Proof.
  induction m as [|e m IH]; intros Hnd; [constructor|].
  cbn in Hnd. apply NoDup_cons in Hnd as [He Hnd]. rewrite filter_cons.
  destruct (decide (P e)); [|apply IH, Hnd].
  cbn. constructor; [|apply IH, Hnd].
  intros Hin. apply He. eapply filter_keys_sub, Hin.
Qed.

(** The keys stay distinct, whether the reconciliation returns or throws. *)
Lemma createClientForWorkspaces_NoDup env s :
  NoDup (clients s).*1 -> NoDup (clients (createClientForWorkspaces env s).2).*1.
Proof.
  intros Hnd.
  assert (forall l rest,
             added_folders (default [] (workspaceFolders env)) (clients s).*1
             = l ++ rest ->
             NoDup (clients s ++ (entry env <$> l)).*1) as Hl.
  { intros l rest Hadded. rewrite fmap_app, entry_keys. apply NoDup_app.
    pose proof (added_folders_NoDup (default [] (workspaceFolders env))
                  (clients s).*1) as Hnd'.
    rewrite Hadded, fmap_app in Hnd'. apply NoDup_app in Hnd' as (Hnd' & _ & _).
    split; [assumption|]. split; [|assumption].
    intros k Hk Hk'.
    assert (k ∈ folder_key
              <$> added_folders (default [] (workspaceFolders env)) (clients s).*1)
      as Hin by (rewrite Hadded, fmap_app, elem_of_app; auto).
    apply added_folders_keys in Hin as [_ Hin]. exact (Hin Hk). }
  destruct (createClientForWorkspaces_cases env s)
    as (comp & l & rest & t & ids & Hadded & [[-> _]|[-> _]]); cbn [snd clients].
  - eapply Hl, Hadded.
  - apply filter_keys_NoDup. eapply Hl, Hadded.
Qed.

(** What holds at the start and is kept by every reconciliation of a
    history, returning or throwing, holds after the history. *)
Lemma handle_changes_invariant (P : Extension -> Prop) envs :
  (forall env s, env ∈ envs -> P s -> P (createClientForWorkspaces env s).2) ->
  forall s, P s -> P (handle_changes envs s).
Proof.
  induction envs as [|env envs IH]; intros Hstep s Hs; [exact Hs|].
  cbn [handle_changes]. apply IH.
  - intros env' s' Henv'. apply Hstep. set_solver.
  - apply Hstep; [set_solver|exact Hs].
Qed.

Lemma reconcile_all_invariant (P : Extension -> Prop) history :
  (forall env s, env ∈ history -> P s -> P (createClientForWorkspaces env s).2) ->
  forall s, P s -> P (reconcile_all history s).2.
Proof.
  destruct history as [|env history]; intros Hstep s Hs; [exact Hs|].
  unfold reconcile_all.
  pose proof (Hstep env s ltac:(set_solver) Hs) as Hs1.
  destruct (createClientForWorkspaces env s) as [[[]|e] s1]; cbn [snd] in *.
  - apply handle_changes_invariant; [|exact Hs1].
    intros env' s' Henv'. apply Hstep. set_solver.
  - exact Hs1.
Qed.

Lemma reachable_NoDup history :
  NoDup (clients (reconcile_all history activation).2).*1.
Proof.
  apply (reconcile_all_invariant (fun s => NoDup (clients s).*1)).
  - intros env s _. apply createClientForWorkspaces_NoDup.
  - constructor.
Qed.

(** Every client in the registry was built by [createClientForWorkspace]
    for a folder with the entry's key that had its marker file. *)
Lemma reachable_provenance history k c :
  (k, Some c) ∈ clients (reconcile_all history activation).2 ->
  exists env f,
    env ∈ history /\ f ∈ default [] (workspaceFolders env)
    /\ folder_key f = k
    /\ findGQLConfigFile_silent env (fsPath (uri f)) = true
    /\ c = new_client env f.
Proof.
  revert k c.
  apply (reconcile_all_invariant
           (fun s => forall k c, (k, Some c) ∈ clients s ->
              exists env f,
                env ∈ history /\ f ∈ default [] (workspaceFolders env)
                /\ folder_key f = k
                /\ findGQLConfigFile_silent env (fsPath (uri f)) = true
                /\ c = new_client env f)).
  - intros env s Henv IH k c Hin.
    assert (forall l rest,
               added_folders (default [] (workspaceFolders env)) (clients s).*1
               = l ++ rest ->
               (k, Some c) ∈ clients s ++ (entry env <$> l) ->
               exists env f,
                 env ∈ history /\ f ∈ default [] (workspaceFolders env)
                 /\ folder_key f = k
                 /\ findGQLConfigFile_silent env (fsPath (uri f)) = true
                 /\ c = new_client env f) as Hl.
    { intros l rest Hadded Hin'. apply elem_of_app in Hin' as [Hin'|Hin'].
      - apply IH, Hin'.
      - apply list_elem_of_fmap in Hin' as (f & Hf & Hfl).
        assert (f ∈ added_folders (default [] (workspaceFolders env))
                      (clients s).*1) as Hadd
          by (rewrite Hadded, elem_of_app; auto).
        apply added_folders_sub in Hadd as [Hfolder _].
        unfold entry, created in Hf. injection Hf as -> Hc.
        exists env, f. split; [assumption|]. split; [assumption|].
        split; [reflexivity|].
        destruct (findGQLConfigFile_silent env (fsPath (uri f)));
          [split; [reflexivity|congruence]|discriminate]. }
    destruct (createClientForWorkspaces_cases env s)
      as (comp & l & rest & t & ids & Hadded & [[Heq _]|[Heq _]]);
      rewrite Heq in Hin; cbn [snd clients] in Hin.
    + eapply Hl; eassumption.
    + apply list_elem_of_filter in Hin as [_ Hin]. eapply Hl; eassumption.
  - intros k c Hin. cbn in Hin. set_solver.
Qed.

Lemma get_elem_of {V} k (v : V) m : JSMap.get k m = Some v -> (k, v) ∈ m.
Proof.
  induction m as [|[k' v'] m IH]; cbn [JSMap.get]; [discriminate|].
  case_bool_decide as Hk.
  - intros [= ->]. subst. set_solver.
  - intros Hg. apply IH in Hg. set_solver.
Qed.

Lemma get_app_l {V} k (v : V) m new :
  JSMap.get k m = Some v -> JSMap.get k (m ++ new) = Some v.
Proof.
  induction m as [|[k' v'] m IH]; cbn [JSMap.get app]; [discriminate|].
  case_bool_decide; [trivial|exact IH].
Qed.

Lemma get_filter_key {V} (P : string * V -> Prop) `{!forall e, Decision (P e)}
      k (m : list (string * V)) :
  (forall v, P (k, v)) -> JSMap.get k (filter P m) = JSMap.get k m.
Proof.
  intros Hk. induction m as [|[k' v] m IH]; [reflexivity|].
  rewrite filter_cons. cbn [JSMap.get].
  destruct (decide (P (k', v))) as [Hk'|Hk']; cbn [JSMap.get].
  - case_bool_decide; [reflexivity|exact IH].
  - rewrite bool_decide_eq_false_2; [exact IH|].
    intros ->. apply Hk', Hk.
Qed.

Lemma get_of_key {V} k (m : list (string * V)) :
  k ∈ m.*1 -> exists v, JSMap.get k m = Some v.
Proof.
  induction m as [|[k' v] m IH]; intros Hk; [set_solver|].
  cbn [JSMap.get]. case_bool_decide; [eauto|].
  apply IH. cbn in Hk. set_solver.
Qed.

Lemma get_app_r {V} k (m new : list (string * V)) :
  k ∉ m.*1 -> JSMap.get k (m ++ new) = JSMap.get k new.
Proof.
  induction m as [|[k' v] m IH]; intros Hk; [reflexivity|].
  cbn [JSMap.get app]. cbn in Hk.
  rewrite bool_decide_eq_false_2 by set_solver. apply IH. set_solver.
Qed.

Lemma get_NoDup {V} k (v : V) (m : list (string * V)) :
  NoDup m.*1 -> (k, v) ∈ m -> JSMap.get k m = Some v.
Proof.
  induction m as [|[k' v'] m IH]; intros Hnd Hin; [set_solver|].
  cbn in Hnd. apply NoDup_cons in Hnd as [Hk' Hnd]. cbn [JSMap.get].
  apply elem_of_cons in Hin as [[= -> ->]|Hin].
  - rewrite bool_decide_eq_true_2; reflexivity.
  - rewrite bool_decide_eq_false_2; [apply IH; assumption|].
    intros ->. apply Hk'. apply list_elem_of_fmap. exists (k, v). auto.
Qed.

Lemma forEach_remove_trace index k c todo : forall s,
  JSMap.get k todo = Some (Some c) -> k ∈ (clients s).*1 -> ~ kept index k ->
  exists t1 t2,
    trace (JSMap.forEach_from clients (remove_client index) todo s).2
    = trace s ++ t1
      ++ [ConsoleLog "deleting client" k; MapDelete k] ++ dispose_effects c ++ t2.
Proof.
  induction todo as [|[k' v] todo IH]; intros s Hget Hin Hk; [discriminate|].
  cbn [JSMap.get] in Hget. cbn [JSMap.forEach_from].
  unfold bind at 1. unfold bind at 1. unfold getState at 1.
  case_bool_decide as Hkk.
  - injection Hget as ->. subst k'.
    rewrite (proj2 (has_true k (clients s)) Hin).
    rewrite remove_client_drop by assumption.
    match goal with
    | |- context [JSMap.forEach_from _ _ todo ?s1] =>
        destruct (forEach_remove_spec index todo s1) as (t & ids & ->)
    end.
    cbn [snd trace from_option]. exists [], t.
    rewrite <- !app_assoc. reflexivity.
  - assert (exists s1 t0,
               (if JSMap.has k' (clients s) then remove_client index v k' else ret tt) s
               = (Normal tt, s1)
               /\ trace s1 = trace s ++ t0 /\ k ∈ (clients s1).*1)
      as (s1 & t0 & -> & Ht0 & Hin1).
    { destruct (JSMap.has k' (clients s)).
      - destruct (decide (kept index k')).
        + rewrite remove_client_keep by assumption.
          exists s, []. rewrite app_nil_r. auto.
        + rewrite remove_client_drop by assumption.
          eexists _, _. split; [reflexivity|]. cbn [clients trace].
          split; [reflexivity|].
          apply list_elem_of_fmap in Hin as ([k0 v0] & -> & Hin).
          apply list_elem_of_fmap. exists (k0, v0). split; [reflexivity|].
          unfold JSMap.delete. apply list_elem_of_filter. cbn in *. auto.
      - exists s, []. rewrite app_nil_r. auto. }
    destruct (IH s1 Hget Hin1 Hk) as (t1 & t2 & ->).
    exists (t0 ++ t1), t2. rewrite Ht0, <- !app_assoc. reflexivity.
Qed.

Lemma keys_after_reconcile env s :
  no_clash env s ->
  (list_to_set (clients (createClientForWorkspaces env s).2).*1 : gset string)
  = list_to_set (root_keys env).
Proof.
  intros Hnc.
  destruct (createClientForWorkspaces_clients env s Hnc) as (s' & -> & Hcl).
  cbn [snd]. rewrite Hcl. apply set_eq. intros k.
  rewrite !elem_of_list_to_set, fmap_app, elem_of_app, entry_keys,
    added_folders_keys.
  unfold root_keys. split.
  - intros [Hk|[Hk _]]; [|exact Hk].
    apply list_elem_of_fmap in Hk as ([k' v] & -> & Hk).
    apply list_elem_of_filter in Hk as [Hk _]. exact Hk.
  - intros Hk. destruct (decide (k ∈ (clients s).*1)) as [Hin|Hin]; [left|auto].
    apply list_elem_of_fmap in Hin as ([k' v] & -> & Hin).
    apply list_elem_of_fmap. exists (k', v). split; [reflexivity|].
    apply list_elem_of_filter. auto.
Qed.

(** C1, evaluated on the code: the click command of an indicator is named
    after its folder's name, so with two roots of the same name the
    second creation throws out of the reconciliation: at activation the
    second root is left without an entry, and when one such root replaces
    the other the old key stays and the new one is missing. *)
Theorem same_named_roots_break_the_registry :
  root_keys (marker_everywhere [folderX; folderY])
  = ["file:///x/app"; "file:///y/app"]
  /\ (createClientForWorkspaces (marker_everywhere [folderX; folderY]) activation).1
     = Throw (CommandExists "showOutputChannel-Graphql-app")
  /\ (clients (createClientForWorkspaces
                 (marker_everywhere [folderX; folderY]) activation).2).*1
     = ["file:///x/app"]
  /\ root_keys (marker_everywhere [folderY]) = ["file:///y/app"]
  /\ (clients (reconcile_all [marker_everywhere [folderX];
                              marker_everywhere [folderY]] activation).2).*1
     = ["file:///x/app"].
Proof. repeat apply conj; vm_compute; reflexivity. Qed.

(** C2, evaluated on the code: after the reconciliation that threw at the
    second of two roots of the same name, a reconciliation with the same
    roots probes that root again, creates its channel, client and status
    bar item again, and throws again. *)
Theorem same_named_root_is_created_again :
  clients clash_registry
  = [("file:///x/app",
      Some (new_client (marker_everywhere [folderX; folderY]) folderX))]
  /\ createClientForWorkspaces (marker_everywhere [folderX; folderY]) clash_registry
     = (Throw (CommandExists "showOutputChannel-Graphql-app"),
        {| clients := clients clash_registry;
           trace := trace clash_registry
                    ++ [FindConfigFile "/y/app";
                        CreateOutputChannel "Graphql-app";
                        NewLanguageClient "file:///y/app" [];
                        NewStatusBarItem "file:///y/app"];
           commands := commands clash_registry |}).
Proof. split; vm_compute; reflexivity. Qed.

(** C3, as the code has it: when no command id clashes, so that the
    first loop returns, a root that left the root set has its key removed
    from the registry first, and its client, when there is one, is
    disposed right after. *)
Theorem removal_precedes_disposal (env : Env) (s : Extension) (k : string) (c : Client) :
  no_clash env s ->
  JSMap.get k (clients s) = Some (Some c) ->
  k ∉ root_keys env ->
  exists s' t1 t2,
    createClientForWorkspaces env s = (Normal tt, s')
    /\ trace s'
       = trace s ++ t1
         ++ [ConsoleLog "deleting client" k; MapDelete k] ++ dispose_effects c ++ t2
    /\ k ∉ (clients s').*1.
Proof.
  intros [Hnd Hfree] Hget Hk.
  unfold createClientForWorkspaces. fold (root_keys env) in *.
  unfold bind. rewrite add_folders_exact by assumption.
  unfold JSMap.forEach, bind, getState. cbn [clients].
  set (folders := default [] (workspaceFolders env)).
  set (index := index_after folders ∅).
  set (new := entry env <$> added_folders folders (clients s).*1).
  set (s1 := {| clients := clients s ++ new; trace := _; commands := _ |}).
  assert (~ kept index k) as Hnot.
  { subst index. rewrite kept_index_roots. exact Hk. }
  destruct (forEach_remove_spec index (clients s ++ new) s1) as (t' & ids' & Hrm).
  destruct (forEach_remove_trace index k c (clients s ++ new) s1)
    as (t1 & t2 & Htr); [apply get_app_l, Hget| |exact Hnot|].
  { subst s1. cbn [clients]. rewrite fmap_app, elem_of_app. left.
    apply list_elem_of_fmap. exists (k, Some c). split; [reflexivity|].
    apply get_elem_of, Hget. }
  rewrite Hrm in Htr |- *. cbn [snd trace] in Htr.
  eexists _, (concat (creation_effects env
                        <$> added_folders folders (clients s).*1) ++ t1), t2.
  split; [reflexivity|]. cbn [clients trace]. split.
  - rewrite Htr. subst s1. cbn [trace]. rewrite <- !app_assoc. reflexivity.
  - intros Hin. apply list_elem_of_fmap in Hin as ([k' v] & -> & Hin).
    apply list_elem_of_filter in Hin as [[Hin|Hin] _]; [exact (Hnot Hin)|].
    apply Hin. subst s1. cbn [clients fst]. rewrite fmap_app, elem_of_app. left.
    apply list_elem_of_fmap. exists (k', Some c). split; [reflexivity|].
    apply get_elem_of, Hget.
Qed.

Section IndicatorClaims.

Variable gwf : string -> option string.
Variable lm : DocumentFilter -> TextDocument -> nat.

(** C5: the indicator renders Initializing when the constructor returns,
    and after any further events short of disposal it renders the state
    the transition table gives. *)
Theorem indicator_follows_transition_table
        (c : LanguageClient) (ed : option TextEditor) (evs : list Event) :
  Dispose ∉ evs ->
  exists w0 w,
    constructor gwf lm c ed fresh = (Normal tt, w0)
    /\ shows Status.init w0
    /\ deliver_all gwf lm evs w0 = (Normal tt, w)
    /\ shows (status_of_state (foldl spec_transition Initializing evs)) w.
Proof.
  intros Hevs.
  pose proof (constructor_live gwf lm c ed) as Hlive.
  rewrite constructor_eq in *. cbn [snd] in Hlive.
  destruct (deliver_all_live gwf lm evs Initializing _ Hlive Hevs) as (w & Hw & Hlive').
  eexists _, w. split; [reflexivity|]. split; [apply Hlive|].
  split; [exact Hw|apply Hlive'].
Qed.

(** C6: on every change of the active editor the visibility of a live
    indicator becomes what the visibility rule says, where a document
    matches an extension set when [languages.match] scores it above zero
    against the filter with scheme [file] and the glob [**/*.{e1,...,en}]
    of the set's extensions joined by commas. *)
Theorem visibility_follows_rule
        (textEditor : option TextEditor) (w : Indicator)
        (it : StatusBarItem) (c : LanguageClient) :
  _item w = Some it -> _client w = Some c ->
  RegActiveEditorListener ∈ registrations w ->
  deliver gwf lm (DidChangeActiveTextEditor textEditor) w
  = (Normal tt,
     with_item
       (Some (set_visible
                (spec_visible (workspaceFolder c) (document <$> textEditor)
                   (fun doc => gwf (doc_uri doc))
                   (fileExtensions <$> initializeResult c)
                   (fun extensions doc =>
                      negb (Nat.eqb
                              (lm {| scheme := "file";
                                     pattern := "**/*.{"
                                                +:+ String.concat "," extensions
                                                +:+ "}" |} doc) 0)))
                it)) w).
Proof.
  intros Hit Hc Hreg. cbn [deliver].
  rewrite when_registered_true by assumption.
  apply _updateVisibility_live; assumption.
Qed.

(** C9, evaluated on the code: after [dispose] the UI primitive is
    released and the click command is unregistered, but the listeners for
    active-editor changes and for client state changes are still
    registered, and they throw once an event reaches them. *)
Theorem listeners_survive_dispose (c : LanguageClient) (ed : option TextEditor) :
  exists w0 w,
    constructor gwf lm c ed fresh = (Normal tt, w0)
    /\ dispose w0 = (Normal tt, w)
    /\ released w = true
    /\ (RegCommand ("showOutputChannel-" +:+ outputChannel c) ∉ registrations w)
    /\ RegActiveEditorListener ∈ registrations w
    /\ RegStateListener ∈ registrations w
    /\ (forall ed',
          (deliver gwf lm (DidChangeActiveTextEditor ed') w).1 = Throw TypeError)
    /\ (forall o,
          (deliver gwf lm (DidChangeState o State.Running) w).1 = Throw TypeError)
    /\ (forall o,
          (deliver gwf lm (DidChangeState o State.Stopped) w).1 = Throw TypeError).
Proof.
  rewrite constructor_eq. eexists _, _. split; [reflexivity|].
  unfold dispose. js_unfold. cbn [_disposables forEach dispose_one].
  js_unfold.
  cbv [release_item unregister with_item with_client registrations _item _client
       _disposables released effects].
  rewrite !filter_cons, filter_nil.
  rewrite decide_False by (intros H; apply H; reflexivity).
  rewrite !decide_True by discriminate.
  split; [reflexivity|]. split; [reflexivity|].
  split; [set_solver|]. split; [set_solver|]. split; [set_solver|].
  split; [|split].
  - intros ed'. cbn [deliver]. rewrite when_registered_true by (cbn; set_solver).
    unfold _updateVisibility, _checkDocumentInsideWorkspace, _getWorkspace, _hide.
    destruct ed' as [e|]; [|reflexivity].
    js_unfold. destruct (gwf (doc_uri (document e))); reflexivity.
  - intros o. cbn [deliver]. rewrite when_registered_true by (cbn; set_solver).
    reflexivity.
  - intros o. cbn [deliver]. rewrite when_registered_true by (cbn; set_solver).
    reflexivity.
Qed.

(** C10: a state change to anything but running or stopped leaves the
    indicator, and so its status and its rendered triple, as it was. *)
Theorem other_state_change_is_noop (oldState newState : State.t) (w : Indicator) :
  newState <> State.Running -> newState <> State.Stopped ->
  deliver gwf lm (DidChangeState oldState newState) w = (Normal tt, w).
Proof.
  intros Hr Hs. cbn [deliver]. unfold when_registered. js_unfold.
  destruct newState; try congruence. cbn [onDidChangeState_handler].
  destruct (bool_decide _); reflexivity.
Qed.

(** C7, as the code has it: the failure handler logs the error on the
    client's own output channel, the channel created for that root,
    through [client.error], which reveals that channel; then the handler
    reveals the channel once more itself, keeping the focus where it is,
    declines the retry and leaves the registry alone. The rejected ready
    signal turns the indicator to Error, and a click on the indicator
    shows the channel as well. *)
Theorem initialization_failure_handling
        (c : LanguageClient) (ed : option TextEditor) (message : string)
        (s : Extension) :
  initializationFailedHandler c message s
  = (Normal false,
     {| clients := clients s;
        trace := trace s
                 ++ [ClientError (outputChannel c)
                                 "Server initialization failed:" message;
                     ChannelShow (outputChannel c) (Some true);
                     ChannelShow (outputChannel c) (Some true)];
        commands := commands s |})
  /\ (forall env folder,
         outputChannel (client (new_client env folder))
         = "Graphql-" +:+ name folder)
  /\ exists w w1 w2,
      constructor gwf lm c ed fresh = (Normal tt, w)
      /\ deliver gwf lm ReadyRejected w = (Normal tt, w1)
      /\ shows Status.error w1
      /\ deliver gwf lm Click w = (Normal tt, w2)
      /\ effects w2 = effects w ++ [ChannelShow (outputChannel c) None].
Proof.
  split; [|split; [reflexivity|]].
  - unfold initializationFailedHandler, client_error, log, bind, modify, ret. cbn.
    rewrite <- !app_assoc. reflexivity.
  - rewrite constructor_eq. eexists _, _, _. split; [reflexivity|].
    cbn [deliver]. rewrite !when_registered_true by (cbn; set_solver).
    split; [reflexivity|]. split.
    { eexists. split; [reflexivity|]. repeat split. }
    js_unfold. cbn [_item item_command].
    rewrite !when_registered_true by (cbn; set_solver).
    split; reflexivity.
Qed.

End IndicatorClaims.

(** C8, as the code has it: the arguments are, in this order, one
    [--watchman=value] when watchman is set and one
    [--auto-download-gql=value] when autoDownloadGQL is set, and nothing
    for a key that is not set; watchman set to "npx watchman" alone gives
    exactly that one argument. *)
Theorem launch_args_per_set_key (cfg : WorkspaceConfiguration) :
  serverOptions_run_args cfg
  = (if cfg_has cfg "watchman"
     then ["--watchman=" +:+ template (cfg_get cfg "watchman")] else [])
    ++ (if cfg_has cfg "autoDownloadGQL"
        then ["--auto-download-gql=" +:+ template (cfg_get cfg "autoDownloadGQL")]
        else [])
  /\ serverOptions_run_args {| settings := {["watchman" := VStr "npx watchman"]} |}
     = ["--watchman=npx watchman"].
Proof.
  split; [|vm_compute; reflexivity].
  unfold serverOptions_run_args.
  destruct (cfg_has cfg "watchman"), (cfg_has cfg "autoDownloadGQL"); reflexivity.
Qed.

(** C8 as stated fails: with autoDownloadGQL set, the code's flag is not
    the configuration key. *)
Lemma launch_flag_differs_from_key :
  serverOptions_run_args autoDownload_config = ["--auto-download-gql=true"]
  /\ spec_launch_args autoDownload_config = ["--autoDownloadGQL=true"]
  /\ serverOptions_run_args autoDownload_config <> spec_launch_args autoDownload_config.
Proof.
  split; [vm_compute; reflexivity|]. split; [vm_compute; reflexivity|].
  vm_compute. discriminate.
Qed.

(** C7 as stated fails: the failure handler itself shows the channel. *)
Lemma failure_handler_shows_channel :
  ~ handler_leaves_channel_hidden clientA "spawn ENOENT" activation.
Proof.
  intros H. apply (H (Some true)). vm_compute.
  apply list_elem_of_further, list_elem_of_here.
Qed.

(** C3 as stated fails: for the removed root [file:///a] no effect of the
    client's disposal comes before the removal of the key. *)
Lemma disposal_follows_removal :
  JSMap.get "file:///a" (clients registryA) = Some (Some {| client := clientA |})
  /\ ("file:///a" ∉ root_keys (sample_env []))
  /\ ~ disposal_precedes_removal "file:///a" {| client := clientA |}
       (trace (createClientForWorkspaces (sample_env []) registryA).2).
Proof.
  split; [vm_compute; reflexivity|]. split; [apply not_elem_of_nil|].
  intros H. specialize (H (ClientStop "file:///a") (list_elem_of_here _ _)).
  vm_compute in H. discriminate.
Qed.

(** [deactivate] on a registry: the entries before the first tombstone are
    disposed, the tombstone throws. *)
Lemma deactivate_loop_spec todo : forall s promises,
  (forall e, e ∈ todo -> e.1 ∈ (clients s).*1) ->
  JSMap.forEach_from (fun s' : Extension * list JSValue => clients s'.1)
                     deactivate_callback todo (s, promises)
  = deactivate_from todo (s, promises).
Proof.
  induction todo as [|[k v] todo IH]; intros s promises Hin; [reflexivity|].
  cbn [JSMap.forEach_from deactivate_from].
  unfold bind at 1. unfold bind at 1. unfold getState at 1. cbn [fst].
  rewrite (proj2 (has_true k (clients s))) by (apply (Hin (k, v)); set_solver).
  destruct v as [c|]; cbn [deactivate_callback]; [|reflexivity].
  cbn [fst snd]. rewrite Client_dispose_eq.
  apply IH. intros e He. cbn [clients]. apply Hin. set_solver.
Qed.

Lemma deactivate_from_tombstone k todo : forall st,
  (k, None) ∈ todo -> (deactivate_from todo st).1 = Throw TypeError.
Proof.
  induction todo as [|[k' v] todo IH]; intros st Hin; [set_solver|].
  destruct v as [c|]; cbn [deactivate_from]; [|reflexivity].
  apply IH. set_solver.
Qed.

Lemma without_commands_nil ids : without_commands [] ids = ids.
Proof.
  unfold without_commands. induction ids as [|id ids IH]; [reflexivity|].
  rewrite filter_cons_True by (cbn; apply not_elem_of_nil).
  f_equal. exact IH.
Qed.

Lemma without_commands_cons c cs ids :
  without_commands cs (filter (fun id => id <> command_id c) ids)
  = without_commands (c :: cs) ids.
Proof.
  unfold without_commands. induction ids as [|id ids IH]; [reflexivity|].
  destruct (decide (id = command_id c)) as [->|Hne].
  - rewrite filter_cons_False by (intros H; apply H; reflexivity).
    rewrite (filter_cons_False (fun id => id ∉ command_id <$> c :: cs))
      by (intros H; apply H; cbn; apply list_elem_of_here).
    exact IH.
  - rewrite filter_cons_True by assumption.
    destruct (decide (id ∈ command_id <$> cs)) as [Hin|Hnin].
    + rewrite filter_cons_False by (intros H; apply H; exact Hin).
      rewrite (filter_cons_False (fun id => id ∉ command_id <$> c :: cs))
        by (intros H; apply H; cbn; apply list_elem_of_further; exact Hin).
      exact IH.
    + rewrite filter_cons_True by assumption.
      rewrite (filter_cons_True (fun id => id ∉ command_id <$> c :: cs))
        by (cbn; rewrite elem_of_cons; tauto).
      f_equal. exact IH.
Qed.

Lemma deactivate_from_normal todo : forall st,
  (forall e, e ∈ todo -> is_Some e.2) ->
  deactivate_from todo st
  = (Normal tt,
     ({| clients := clients st.1;
         trace := trace st.1 ++ concat (dispose_effects <$> omap snd todo);
         commands := without_commands (omap snd todo) (commands st.1) |},
      st.2 ++ replicate (length todo) VUndefined)).
Proof.
  induction todo as [|[k v] todo IH]; intros [s ps] Hall.
  - cbn. rewrite !app_nil_r, without_commands_nil. destruct s; reflexivity.
  - destruct v as [c|]; [|destruct (Hall (k, None)) as [? [=]]; set_solver].
    cbn [deactivate_from]. rewrite IH by (intros e He; apply Hall; set_solver).
    cbn [fst snd clients trace commands omap list_omap fmap list_fmap concat
         length replicate].
    rewrite without_commands_cons, <- !app_assoc. reflexivity.
Qed.

Lemma deactivate_from_state todo : forall st,
  (deactivate_from todo st).2.1
  = {| clients := clients st.1;
       trace := trace st.1 ++ concat (dispose_effects <$> live_prefix todo);
       commands := without_commands (live_prefix todo) (commands st.1) |}.
Proof.
  induction todo as [|[k [c|]] todo IH]; intros [s ps]; cbn [deactivate_from live_prefix].
  - cbn. rewrite app_nil_r, without_commands_nil. destruct s; reflexivity.
  - rewrite IH. cbn [fst snd clients trace commands fmap list_fmap concat].
    rewrite without_commands_cons, <- app_assoc. reflexivity.
  - cbn. rewrite app_nil_r, without_commands_nil. destruct s; reflexivity.
Qed.

Lemma deactivate_from_throws todo : forall st,
  (deactivate_from todo st).1 = Throw TypeError -> exists k, (k, None) ∈ todo.
Proof.
  induction todo as [|[k [c|]] todo IH]; intros st; cbn [deactivate_from fst].
  - discriminate.
  - intros H. apply IH in H as (k' & Hk'). exists k'. set_solver.
  - intros _. exists k. set_solver.
Qed.

Lemma deactivate_eq s :
  deactivate s
  = match deactivate_from (clients s) (s, []) with
    | (Normal _, (e, promises)) => (Normal promises, e)
    | (Throw err, (e, _)) => (Throw err, e)
    end.
Proof.
  unfold deactivate, JSMap.forEach, bind, getState. cbn [fst].
  rewrite deactivate_loop_spec
    by (intros e He; apply list_elem_of_fmap; exists e; auto).
  reflexivity.
Qed.

(** C4, evaluated on the code: with a tombstone in the registry
    [deactivate] throws a [TypeError] when it reaches it, and the entries
    after it are never disposed. *)
Theorem deactivate_throws_on_tombstone :
  (clients sample_registry).*1 = ["file:///a"; "file:///b"]
  /\ JSMap.get "file:///b" (clients sample_registry) = Some None
  /\ (deactivate sample_registry).1 = Throw TypeError
  /\ (deactivate
        (createClientForWorkspaces (sample_env [folderB; folderA]) activation).2)
     = (Throw TypeError,
        (createClientForWorkspaces (sample_env [folderB; folderA]) activation).2).
Proof. repeat split; vm_compute; reflexivity. Qed.

(** * Further properties of the code *)

(** ** The registry *)

(** X1: a reconciliation whose new command ids clash neither with one
    another nor with a registered one returns, and leaves the registry
    with exactly the keys of the current workspace roots. *)
Theorem keys_match_roots_without_clash (env : Env) (s : Extension) :
  no_clash env s ->
  (createClientForWorkspaces env s).1 = Normal tt
  /\ (list_to_set (clients (createClientForWorkspaces env s).2).*1 : gset string)
     = list_to_set (root_keys env).
Proof.
  intros Hfree. split; [|apply keys_after_reconcile; exact Hfree].
  destruct (createClientForWorkspaces_clients env s Hfree) as (s' & -> & _).
  reflexivity.
Qed.

(** X2: a root whose folder never had the marker file when it was
    reconciled never gets a client, however often the reconciliation
    runs. *)
Theorem markerless_root_never_gets_client (history : list Env) (k : string) :
  (forall env f,
      env ∈ history -> f ∈ default [] (workspaceFolders env) ->
      folder_key f = k -> findGQLConfigFile_silent env (fsPath (uri f)) = false) ->
  forall c, (k, Some c) ∉ clients (reconcile_all history activation).2.
Proof.
  intros Hno c Hin.
  apply reachable_provenance in Hin as (env & f & Henv & Hf & Hk & Hmarker & _).
  rewrite (Hno env f Henv Hf Hk) in Hmarker. discriminate.
Qed.

(** X3: an entry whose root is still open is left as it is, without
    looking at the file system again; a tombstone stays a tombstone even
    when the marker file has appeared since. *)
Theorem open_root_entry_is_kept (env : Env) (s : Extension) (k : string) :
  k ∈ root_keys env -> k ∈ (clients s).*1 ->
  JSMap.get k (clients (createClientForWorkspaces env s).2)
  = JSMap.get k (clients s).
Proof.
  intros Hroot Hk.
  destruct (get_of_key k (clients s) Hk) as (v & Hv). rewrite Hv.
  destruct (createClientForWorkspaces_cases env s)
    as (comp & l & rest & t & ids & _ & [[-> _]|[-> _]]); cbn [snd clients].
  - apply get_app_l. exact Hv.
  - rewrite get_filter_key by (intros ?; exact Hroot).
    apply get_app_l. exact Hv.
Qed.

(** X4: when the workspace folders have distinct URIs and no command id
    clashes, a folder that is not in the registry yet gets an entry under
    its key: the client built for it when its marker file is found, a
    tombstone otherwise. *)
Theorem new_root_gets_entry (env : Env) (s : Extension) (f : WorkspaceFolder) :
  no_clash env s ->
  NoDup (root_keys env) ->
  f ∈ default [] (workspaceFolders env) ->
  folder_key f ∉ (clients s).*1 ->
  JSMap.get (folder_key f) (clients (createClientForWorkspaces env s).2)
  = Some (if findGQLConfigFile_silent env (fsPath (uri f))
          then Some (new_client env f) else None).
Proof.
  intros Hfree Hnd Hf Hk.
  destruct (createClientForWorkspaces_clients env s Hfree) as (s' & Heq & Hcl).
  rewrite Heq. cbn [snd]. rewrite Hcl.
  rewrite get_app_r by (intros Hin; apply Hk; eapply filter_keys_sub, Hin).
  apply get_NoDup.
  - rewrite entry_keys. apply added_folders_NoDup.
  - apply (list_elem_of_fmap_2 (entry env)).
    apply added_folders_elem; assumption.
Qed.

(** X5: a reconciliation without a clash of command ids keeps the
    surviving entries in their order and appends one entry for each root
    that was not in the registry. *)
Theorem reconcile_keeps_order (env : Env) (s : Extension) :
  no_clash env s ->
  exists s' new,
    createClientForWorkspaces env s = (Normal tt, s')
    /\ clients s' = filter (fun e => e.1 ∈ root_keys env) (clients s) ++ new
    /\ NoDup new.*1
    /\ (forall k, k ∈ new.*1 <-> k ∈ root_keys env /\ k ∉ (clients s).*1).
Proof.
  intros Hfree.
  destruct (createClientForWorkspaces_clients env s Hfree) as (s' & Heq & Hcl).
  eexists _, _. split; [exact Heq|]. split; [exact Hcl|].
  rewrite entry_keys. split; [apply added_folders_NoDup|].
  intros k. apply added_folders_keys.
Qed.

Lemma probes_of_creation env (l : list WorkspaceFolder) :
  length (filter (fun e => is_probe e) (concat (creation_effects env <$> l)))
  = length l.
Proof.
  induction l as [|f l IH]; [reflexivity|].
  cbn [fmap list_fmap concat]. rewrite filter_app, length_app, IH.
  unfold creation_effects.
  destruct (findGQLConfigFile_silent env (fsPath (uri f))); reflexivity.
Qed.

Lemma probes_of_removal roots (m : list (string * option Client)) :
  filter (fun e => is_probe e) (concat (removal_effects roots <$> m)) = [].
Proof.
  induction m as [|[k v] m IH]; [reflexivity|].
  cbn [fmap list_fmap concat]. rewrite filter_app, IH, app_nil_r.
  unfold removal_effects. case_bool_decide; [reflexivity|].
  destruct v; reflexivity.
Qed.

(** X6: each reconciliation without a clash of command ids probes the
    file system for the marker file exactly once per entry it adds, and
    never for a root that is already in the registry nor for one it
    removes. *)
Theorem one_probe_per_added_entry (history : list Env) (env : Env) :
  no_clash env (reconcile_all history activation).2 ->
  exists s' new t,
    createClientForWorkspaces env (reconcile_all history activation).2
    = (Normal tt, s')
    /\ clients s'
       = filter (fun e => e.1 ∈ root_keys env)
                (clients (reconcile_all history activation).2) ++ new
    /\ trace s' = trace (reconcile_all history activation).2 ++ t
    /\ length (filter (fun e => is_probe e) t) = length new.
Proof.
  set (s := (reconcile_all history activation).2). intros Hfree.
  pose proof (createClientForWorkspaces_trace env s Hfree (reachable_NoDup history))
    as Ht.
  destruct (createClientForWorkspaces_clients env s Hfree) as (s' & Heq & Hcl).
  rewrite Heq in Ht. cbn [snd] in Ht.
  eexists _, _, _. split; [exact Heq|]. split; [exact Hcl|]. split; [exact Ht|].
  rewrite filter_app, length_app, probes_of_creation, probes_of_removal.
  rewrite length_fmap. cbn. lia.
Qed.

(** X7: the effects of a reconciliation without a clash of command ids
    are, in this order, the creation effects of the added folders and
    then, for each entry of the registry in insertion order whose root is
    gone, the log line, the removal of the key and, for a client, its
    disposal; nothing else happens. *)
Theorem reconcile_effects (history : list Env) (env : Env) :
  no_clash env (reconcile_all history activation).2 ->
  trace (createClientForWorkspaces env (reconcile_all history activation).2).2
  = trace (reconcile_all history activation).2
    ++ concat (creation_effects env
                 <$> added_folders (default [] (workspaceFolders env))
                       (clients (reconcile_all history activation).2).*1)
    ++ concat (removal_effects (root_keys env)
                 <$> clients (reconcile_all history activation).2).
Proof.
  intros Hfree.
  apply createClientForWorkspaces_trace; [exact Hfree|apply reachable_NoDup].
Qed.

(** X8: every client in the registry is the one
    [createClientForWorkspace] built for a folder with the entry's key
    that had its marker file; in particular the client's workspace folder
    is the key it is stored under. *)
Theorem registry_client_provenance (history : list Env) (k : string) (c : Client) :
  (k, Some c) ∈ clients (reconcile_all history activation).2 ->
  workspaceFolder (client c) = k
  /\ exists env f,
      env ∈ history /\ f ∈ default [] (workspaceFolders env)
      /\ folder_key f = k
      /\ findGQLConfigFile_silent env (fsPath (uri f)) = true
      /\ c = new_client env f.
Proof.
  intros Hin.
  destruct (reachable_provenance history k c Hin)
    as (env & f & Henv & Hf & Hk & Hmarker & ->).
  split; [exact Hk|]. exists env, f. auto.
Qed.

Lemma stops_of_creation env k (l : list WorkspaceFolder) :
  filter (fun e => e = ClientStop k) (concat (creation_effects env <$> l)) = [].
Proof.
  induction l as [|f l IH]; [reflexivity|].
  cbn [fmap list_fmap concat]. rewrite filter_app, IH, app_nil_r.
  unfold creation_effects.
  destruct (findGQLConfigFile_silent env (fsPath (uri f))); cbn [app];
    repeat (rewrite filter_cons_False by discriminate); reflexivity.
Qed.

Lemma stops_of_block roots k k' (v : option Client) :
  (forall c, v = Some c -> workspaceFolder (client c) = k') ->
  length (filter (fun e => e = ClientStop k) (removal_effects roots (k', v)))
  = match v with
    | Some _ => if bool_decide (k' = k /\ k' ∉ roots) then 1 else 0
    | None => 0
    end.
Proof.
  intros Hwf. unfold removal_effects. cbn [fst snd].
  case_bool_decide as Hroot.
  - destruct v; [|reflexivity].
    rewrite bool_decide_eq_false_2 by tauto. reflexivity.
  - destruct v as [c|]; unfold dispose_effects; cbn [from_option app].
    + rewrite (Hwf c eq_refl).
      repeat (rewrite filter_cons_False by discriminate).
      destruct (decide (k' = k)) as [->|Hne].
      * rewrite filter_cons_True by reflexivity.
        repeat (rewrite filter_cons_False by discriminate).
        rewrite bool_decide_eq_true_2 by tauto. reflexivity.
      * rewrite filter_cons_False by congruence.
        repeat (rewrite filter_cons_False by discriminate).
        rewrite bool_decide_eq_false_2 by tauto. reflexivity.
    + repeat (rewrite filter_cons_False by discriminate). reflexivity.
Qed.

Lemma stops_of_removal roots k (m : list (string * option Client)) :
  NoDup m.*1 ->
  (forall k' c', (k', Some c') ∈ m -> workspaceFolder (client c') = k') ->
  length (filter (fun e => e = ClientStop k) (concat (removal_effects roots <$> m)))
  = match JSMap.get k m with
    | Some (Some _) => if bool_decide (k ∈ roots) then 0 else 1
    | _ => 0
    end.
Proof.
  induction m as [|[k' v] m IH]; intros Hnd Hwf; [reflexivity|].
  cbn in Hnd. apply NoDup_cons in Hnd as [Hk' Hnd].
  cbn [fmap list_fmap concat]. rewrite filter_app, length_app.
  rewrite stops_of_block by (intros c ->; apply Hwf; set_solver).
  rewrite IH; [|assumption|intros; apply Hwf; set_solver].
  cbn [JSMap.get]. destruct (decide (k' = k)) as [->|Hne].
  - rewrite (bool_decide_eq_true_2 (k = k)) by reflexivity.
    assert (JSMap.get k m = None) as ->.
    { destruct (JSMap.get k m) as [v'|] eqn:Hg; [|reflexivity].
      exfalso. apply Hk'. apply get_elem_of in Hg.
      apply list_elem_of_fmap. exists (k, v'). auto. }
    destruct v; [|reflexivity].
    destruct (decide (k ∈ roots)).
    + rewrite bool_decide_eq_false_2 by tauto.
      rewrite bool_decide_eq_true_2 by assumption. reflexivity.
    + rewrite bool_decide_eq_true_2 by tauto.
      rewrite bool_decide_eq_false_2 by assumption. reflexivity.
  - rewrite (bool_decide_eq_false_2 (k' = k)) by assumption.
    destruct v; [|reflexivity].
    rewrite bool_decide_eq_false_2 by tauto. reflexivity.
Qed.

(** X9: in one reconciliation without a clash of command ids the client
    of a root that is gone is stopped exactly once, and the client of a
    root that is still open is not stopped. *)
Theorem client_stopped_once_iff_removed
        (history : list Env) (env : Env) (k : string) (c : Client) :
  no_clash env (reconcile_all history activation).2 ->
  (k, Some c) ∈ clients (reconcile_all history activation).2 ->
  length
    (filter (fun e => e = ClientStop k)
       (drop (length (trace (reconcile_all history activation).2))
          (trace (createClientForWorkspaces env
                    (reconcile_all history activation).2).2)))
  = if bool_decide (k ∈ root_keys env) then 0 else 1.
Proof.
  intros Hfree Hin.
  rewrite createClientForWorkspaces_trace by (try apply reachable_NoDup; exact Hfree).
  rewrite drop_app_length, filter_app, length_app.
  rewrite stops_of_creation. cbn [length].
  rewrite stops_of_removal.
  - rewrite (get_NoDup k (Some c)); [reflexivity|apply reachable_NoDup|exact Hin].
  - apply reachable_NoDup.
  - intros k' c' Hin'.
    apply reachable_provenance in Hin' as (env0 & f & _ & _ & Hk & _ & ->).
    exact Hk.
Qed.

(** X18: a root that is closed and opened again starts afresh when
    neither reconciliation meets a clash of command ids: whatever its
    entry was before, after the two reconciliations it holds the client
    built at the second one when the marker file is found then, and a
    tombstone otherwise. *)
Theorem reopened_root_is_probed_again
        (env0 env : Env) (s : Extension) (f : WorkspaceFolder) :
  no_clash env0 s ->
  no_clash env (createClientForWorkspaces env0 s).2 ->
  folder_key f ∉ root_keys env0 ->
  NoDup (root_keys env) ->
  f ∈ default [] (workspaceFolders env) ->
  JSMap.get (folder_key f)
    (clients (createClientForWorkspaces env
                (createClientForWorkspaces env0 s).2).2)
  = Some (if findGQLConfigFile_silent env (fsPath (uri f))
          then Some (new_client env f) else None).
Proof.
  intros Hfree0 Hfree Hgone Hnd Hf.
  set (s1 := (createClientForWorkspaces env0 s).2) in *.
  assert (folder_key f ∉ (clients s1).*1) as Hk.
  { intros Hin. apply Hgone.
    apply (elem_of_list_to_set (C := gset string)).
    rewrite <- (keys_after_reconcile env0 s Hfree0).
    apply elem_of_list_to_set. exact Hin. }
  destruct (createClientForWorkspaces_clients env s1 Hfree) as (s2 & Heq & Hcl).
  rewrite Heq. cbn [snd]. rewrite Hcl.
  rewrite get_app_r by (intros Hin; apply Hk; eapply filter_keys_sub, Hin).
  apply get_NoDup.
  - rewrite entry_keys. apply added_folders_NoDup.
  - apply (list_elem_of_fmap_2 (entry env)).
    apply added_folders_elem; assumption.
Qed.


(** X20: after a reconciliation without a clash of command ids, a second
    one with the same root set does nothing: no probe, no creation, no
    disposal, and the registry is unchanged, tombstones included. *)
Theorem reconcile_idempotent_without_clash (env env' : Env) (s : Extension) :
  no_clash env s ->
  (forall k, k ∈ root_keys env' <-> k ∈ root_keys env) ->
  createClientForWorkspaces env' (createClientForWorkspaces env s).2
  = (Normal tt, (createClientForWorkspaces env s).2).
Proof.
  intros Hfree Hsame.
  pose proof (keys_after_reconcile env s Hfree) as Hkeys.
  set (s1 := (createClientForWorkspaces env s).2) in *.
  assert (forall k, k ∈ (clients s1).*1 <-> k ∈ root_keys env) as Hiff.
  { intros k.
    rewrite <- (elem_of_list_to_set (C := gset string) k (clients s1).*1).
    rewrite Hkeys. apply elem_of_list_to_set. }
  unfold createClientForWorkspaces, bind.
  rewrite add_folders_noop by (intros k Hk; apply Hiff, Hsame, Hk).
  unfold JSMap.forEach, bind, getState.
  apply forEach_remove_noop. intros e1 He.
  apply kept_index_roots. apply Hsame, Hiff.
  apply list_elem_of_fmap. exists e1. auto.
Qed.

(** ** Shutdown *)

(** X10: [deactivate] never changes the registry itself, and it disposes
    exactly the clients in front of the first tombstone, in insertion
    order, which releases their command ids. *)
Theorem deactivate_leaves_registry (s : Extension) :
  (deactivate s).2
  = {| clients := clients s;
       trace := trace s ++ concat (dispose_effects <$> live_prefix (clients s));
       commands := without_commands (live_prefix (clients s)) (commands s) |}.
Proof.
  rewrite deactivate_eq.
  pose proof (deactivate_from_state (clients s) (s, [])) as H.
  destruct (deactivate_from (clients s) (s, [])) as [[[]|err] [e ps]];
    cbn [fst snd] in *; exact H.
Qed.

(** X11: [deactivate] throws exactly when the registry holds a
    tombstone. *)
Theorem deactivate_throws_iff_tombstone (s : Extension) :
  (deactivate s).1 = Throw TypeError <-> exists k, (k, None) ∈ clients s.
Proof.
  rewrite deactivate_eq. split.
  - intros H. apply (deactivate_from_throws (clients s) (s, [])).
    destruct (deactivate_from (clients s) (s, [])) as [[[]|err] [e ps]];
      cbn [fst] in *; [discriminate|congruence].
  - intros (k & Hk).
    pose proof (deactivate_from_tombstone k (clients s) (s, []) Hk) as H.
    destruct (deactivate_from (clients s) (s, [])) as [[[]|err] [e ps]];
      cbn [fst] in *; [discriminate|congruence].
Qed.

(** X12: when the registry holds no tombstone, [deactivate] disposes every
    client once, in insertion order, which releases their command ids,
    leaves the entries in the registry, and hands [Promise.all] one
    [undefined] per client, so the promise it returns waits on nothing. *)
Theorem deactivate_disposes_every_client (s : Extension) :
  (forall e, e ∈ clients s -> is_Some e.2) ->
  deactivate s
  = (Normal (replicate (length (clients s)) VUndefined),
     {| clients := clients s;
        trace := trace s ++ concat (dispose_effects <$> omap snd (clients s));
        commands := without_commands (omap snd (clients s)) (commands s) |}).
Proof.
  intros Hall. rewrite deactivate_eq.
  rewrite deactivate_from_normal by assumption. reflexivity.
Qed.

(** ** More on the status indicator *)

Lemma forEach_dispose_one l : forall w,
  forEach dispose_one l w
  = (Normal tt,
     {| _item := _item w; _client := _client w; _disposables := _disposables w;
        registrations := filter (fun r => DRegistration r ∉ l) (registrations w);
        released := released w || bool_decide (DItem ∈ l);
        effects := effects w |}).
Proof.
  induction l as [|d l IH]; intros w.
  - cbn [forEach]. unfold ret. f_equal.
    rewrite filter_all by (intros; set_solver).
    rewrite bool_decide_eq_false_2 by set_solver. rewrite orb_false_r.
    destruct w; reflexivity.
  - cbn [forEach]. unfold bind. destruct d as [|r0]; cbn [dispose_one];
      unfold modify; rewrite IH; f_equal.
    + cbn [release_item _item _client _disposables registrations released effects].
      f_equal.
      * apply list_filter_iff. intros r. set_solver.
      * rewrite (bool_decide_eq_true_2 (DItem ∈ DItem :: l)) by set_solver.
        rewrite orb_true_r. reflexivity.
    + cbn [unregister _item _client _disposables registrations released effects].
      f_equal.
      * rewrite list_filter_filter. apply list_filter_iff. intros r.
        rewrite not_elem_of_cons. split; [intros [? ?]|intros [? ?]]; split;
          try assumption; congruence.
      * f_equal. apply bool_decide_ext. set_solver.
Qed.

Lemma dispose_eq w :
  dispose w
  = (Normal tt,
     {| _item := None; _client := None; _disposables := _disposables w;
        registrations :=
          filter (fun r => DRegistration r ∉ _disposables w) (registrations w);
        released := released w || bool_decide (DItem ∈ _disposables w);
        effects := effects w |}).
Proof.
  unfold dispose. unfold bind at 1. unfold getState.
  unfold bind at 1. rewrite forEach_dispose_one.
  unfold bind, modify. reflexivity.
Qed.

(** X13: [dispose] never throws, whatever state the indicator is in; it
    leaves both fields null, and disposing once more changes nothing. *)
Theorem dispose_is_idempotent (w : Indicator) :
  exists w',
    dispose w = (Normal tt, w')
    /\ _item w' = None /\ _client w' = None
    /\ dispose w' = (Normal tt, w').
Proof.
  rewrite dispose_eq. eexists. split; [reflexivity|].
  split; [reflexivity|]. split; [reflexivity|].
  rewrite dispose_eq.
  cbn [_item _client _disposables registrations released effects].
  do 2 f_equal.
  - rewrite list_filter_filter. apply list_filter_iff. intros r. tauto.
  - rewrite <- orb_assoc, orb_diag. reflexivity.
Qed.

Section MoreIndicatorFacts.

Variable gwf : string -> option string.
Variable lm : DocumentFilter -> TextDocument -> nat.

(** X14: a state change of the client or the settling of its ready signal
    touches only the text, tooltip and colour of the item: visibility,
    click command, client, registrations and shown channels stay as they
    were. *)
Theorem status_event_keeps_the_rest (ev : Event) (w : Indicator) :
  is_status_event ev = true -> is_Some (_item w) ->
  exists w',
    deliver gwf lm ev w = (Normal tt, w')
    /\ item_visible <$> _item w' = item_visible <$> _item w
    /\ item_command <$> _item w' = item_command <$> _item w
    /\ _client w' = _client w
    /\ _disposables w' = _disposables w
    /\ registrations w' = registrations w
    /\ released w' = released w
    /\ effects w' = effects w.
Proof.
  intros Hev (it & Hit).
  assert (forall status,
             exists w', _setStatus status w = (Normal tt, w')
                        /\ item_visible <$> _item w' = item_visible <$> _item w
                        /\ item_command <$> _item w' = item_command <$> _item w
                        /\ _client w' = _client w
                        /\ _disposables w' = _disposables w
                        /\ registrations w' = registrations w
                        /\ released w' = released w
                        /\ effects w' = effects w) as Hset.
  { intros status. erewrite _setStatus_live by eassumption.
    eexists. split; [reflexivity|]. rewrite Hit. repeat apply conj; reflexivity. }
  assert (exists w', (Normal tt, w) = (Normal tt, w')
                     /\ item_visible <$> _item w' = item_visible <$> _item w
                     /\ item_command <$> _item w' = item_command <$> _item w
                     /\ _client w' = _client w
                     /\ _disposables w' = _disposables w
                     /\ registrations w' = registrations w
                     /\ released w' = released w
                     /\ effects w' = effects w) as Hsame.
  { exists w. repeat apply conj; reflexivity. }
  destruct ev as [o n| | |ed| |res|]; try discriminate; cbn [deliver].
  - destruct (decide (RegStateListener ∈ registrations w)).
    + rewrite when_registered_true by assumption.
      destruct n; cbn [onDidChangeState_handler]; [apply Hset..|exact Hsame].
    + rewrite when_registered_false by assumption. exact Hsame.
  - destruct (decide (RegReadyCallbacks ∈ registrations w)).
    + rewrite when_registered_true by assumption. apply Hset.
    + rewrite when_registered_false by assumption. exact Hsame.
  - destruct (decide (RegReadyCallbacks ∈ registrations w)).
    + rewrite when_registered_true by assumption. apply Hset.
    + rewrite when_registered_false by assumption. exact Hsame.
Qed.

(** X15: of two changes of the active editor in a row only the second
    one counts: the indicator ends as if the first had not happened. *)
Theorem last_focus_change_decides
        (ed1 ed2 : option TextEditor) (w : Indicator)
        (it : StatusBarItem) (c : LanguageClient) :
  _item w = Some it -> _client w = Some c ->
  RegActiveEditorListener ∈ registrations w ->
  deliver_all gwf lm
    [DidChangeActiveTextEditor ed1; DidChangeActiveTextEditor ed2] w
  = deliver gwf lm (DidChangeActiveTextEditor ed2) w.
Proof.
  intros Hit Hc Hreg. cbn [deliver_all deliver].
  unfold bind at 1. rewrite when_registered_true by assumption.
  rewrite (_updateVisibility_live gwf lm ed1 w it c Hit Hc).
  unfold bind at 1. rewrite !when_registered_true by assumption.
  erewrite !_updateVisibility_live by (try eassumption; reflexivity).
  reflexivity.
Qed.

(** X16: when the indicator is disposed before the ready signal of its
    client settles, the ready callbacks are still pending, and either of
    them throws on the null item once the signal settles. *)
Theorem ready_after_dispose_throws (c : LanguageClient) (ed : option TextEditor) :
  exists w0 w,
    constructor gwf lm c ed fresh = (Normal tt, w0)
    /\ dispose w0 = (Normal tt, w)
    /\ RegReadyCallbacks ∈ registrations w
    /\ deliver gwf lm ReadyResolved w = (Throw TypeError, w)
    /\ deliver gwf lm ReadyRejected w = (Throw TypeError, w).
Proof.
  rewrite constructor_eq. eexists _, _. split; [reflexivity|].
  rewrite dispose_eq. split; [reflexivity|].
  cbn [_item _client _disposables registrations released effects].
  assert (RegReadyCallbacks
          ∈ filter (fun r => DRegistration r
                             ∉ [DItem;
                                DRegistration
                                  (RegCommand ("showOutputChannel-" +:+ outputChannel c))])
                   [RegCommand ("showOutputChannel-" +:+ outputChannel c);
                    RegStateListener; RegReadyCallbacks; RegActiveEditorListener])
    as Hreg.
  { apply list_elem_of_filter. split; [|set_solver].
    intros H. repeat (apply elem_of_cons in H as [H|H]; [discriminate|]).
    set_solver. }
  split; [exact Hreg|].
  cbn [deliver]. rewrite !when_registered_true by exact Hreg.
  split; reflexivity.
Qed.

(** X17: in an editor where its command id is free the constructor
    returns. It binds and registers the command
    [showOutputChannel-<channel name>] next to the commands that were
    there, and it computes the first visibility from the editor that is
    active at that moment: for a client without an initialization result
    the item is shown exactly when the active document lies in the
    client's workspace folder. *)
Theorem constructor_initial_state
        (ids : list string) (c : LanguageClient) (ed : option TextEditor) :
  "showOutputChannel-" +:+ outputChannel c ∉ ids ->
  exists w it,
    constructor gwf lm c ed (editor_with ids) = (Normal tt, w)
    /\ _item w = Some it
    /\ item_command it = Some ("showOutputChannel-" +:+ outputChannel c)
    /\ registered_commands w = ids ++ ["showOutputChannel-" +:+ outputChannel c]
    /\ item_visible it = visible_after gwf lm c ed
    /\ (initializeResult c = None ->
        item_visible it
        = match ed with
          | None => false
          | Some e =>
              bool_decide (gwf (doc_uri (document e)) = Some (workspaceFolder c))
          end)
    /\ released w = false
    /\ effects w = [].
Proof.
  intros Hfree.
  rewrite constructor_free by exact Hfree. eexists _, _. split; [reflexivity|].
  split; [reflexivity|]. split; [reflexivity|].
  split; [apply registered_commands_app|].
  split; [reflexivity|]. split; [|split; reflexivity].
  intros Hinit. cbn [item_visible]. unfold visible_after, spec_visible.
  rewrite Hinit. destruct ed as [e|]; [|reflexivity].
  cbn [fmap option_fmap option_map].
  destruct (bool_decide _); reflexivity.
Qed.

(** X21: in an editor where its command id is registered already the
    constructor throws out of [commands.registerCommand]: the status bar
    item has been created by then and is never released, no listener is
    registered, and the registered commands are as they were. *)
Theorem constructor_throws_when_command_taken
        (ids : list string) (c : LanguageClient) (ed : option TextEditor) :
  "showOutputChannel-" +:+ outputChannel c ∈ ids ->
  exists w,
    constructor gwf lm c ed (editor_with ids)
    = (Throw (CommandExists ("showOutputChannel-" +:+ outputChannel c)), w)
    /\ _item w = Some createStatusBarItem
    /\ released w = false
    /\ registrations w = RegCommand <$> ids.
Proof.
  intros Htaken. rewrite constructor_taken by exact Htaken.
  eexists. repeat apply conj; reflexivity.
Qed.

End MoreIndicatorFacts.

(** * The theorems on the sample workspaces *)

Lemma removal_precedes_disposal_witness :
  exists s' t1 t2,
    createClientForWorkspaces (sample_env []) registryA = (Normal tt, s')
    /\ trace s'
       = trace registryA ++ t1
         ++ [ConsoleLog "deleting client" "file:///a"; MapDelete "file:///a"]
         ++ dispose_effects {| client := clientA |} ++ t2
    /\ "file:///a" ∉ (clients s').*1.
Proof.
  apply (removal_precedes_disposal (sample_env []) registryA "file:///a"
           {| client := clientA |}).
  - apply (bool_decide_unpack _). vm_compute. exact I.
  - vm_compute. reflexivity.
  - apply not_elem_of_nil.
Defined.

Lemma other_state_change_is_noop_witness :
  deliver sample_getWorkspaceFolder sample_match
          (DidChangeState State.Stopped State.Starting) sample_indicator
  = (Normal tt, sample_indicator).
Proof.
  apply (other_state_change_is_noop sample_getWorkspaceFolder sample_match
           State.Stopped State.Starting sample_indicator); discriminate.
Defined.

Lemma indicator_follows_transition_table_witness :
  table_run [DidChangeState State.Starting State.Running] Status.ok
  /\ table_run [DidChangeState State.Starting State.Stopped] Status.error
  /\ table_run [ReadyResolved] Status.ok
  /\ table_run [ReadyRejected] Status.error
  /\ table_run [DidChangeState State.Starting State.Running;
                DidChangeState State.Running State.Stopped] Status.error.
Proof.
  unfold table_run.
  repeat apply conj;
    apply (indicator_follows_transition_table
             sample_getWorkspaceFolder sample_match clientA None);
    apply (bool_decide_unpack _); vm_compute; exact I.
Defined.

Lemma visibility_follows_rule_witness :
  visible_with ["graphql"; "gql"] doc_gql = Some true
  /\ visible_with ["graphql"; "gql"] doc_ts = Some false
  /\ visible_with ["ts"] doc_gql = Some false
  /\ visible_with ["ts"] doc_ts = Some true
  /\ visible_with ["graphql"; "gql"] doc_outside = Some false
  /\ visible_on sample_indicator doc_ts = Some true
  /\ visible_on sample_initialized doc_gql = Some true
  /\ visible_on sample_initialized doc_ts = Some false
  /\ visible_on sample_initialized doc_outside = Some false
  /\ visible_on sample_indicator doc_outside = Some false
  /\ the_visible
       (deliver sample_getWorkspaceFolder sample_match
                (DidChangeActiveTextEditor None) sample_indicator).2
     = Some false.
Proof.
  unfold visible_with, visible_on.
  repeat apply conj.
  all: first
         [ erewrite (visibility_follows_rule sample_getWorkspaceFolder glob_match)
         | erewrite (visibility_follows_rule sample_getWorkspaceFolder sample_match) ];
    [| vm_compute; reflexivity | vm_compute; reflexivity
     | apply (bool_decide_unpack _); vm_compute; exact I ];
    vm_compute; reflexivity.
Defined.

Lemma keys_match_roots_without_clash_witness :
  (createClientForWorkspaces (sample_env [folderB]) sample_registry).1 = Normal tt
  /\ (list_to_set
        (clients (createClientForWorkspaces (sample_env [folderB])
                    sample_registry).2).*1 : gset string)
     = list_to_set (root_keys (sample_env [folderB])).
Proof.
  apply (keys_match_roots_without_clash (sample_env [folderB]) sample_registry).
  apply (bool_decide_unpack _). vm_compute. exact I.
Defined.

Lemma markerless_root_never_gets_client_witness :
  (forall env f,
      env ∈ [sample_env [folderA; folderB]; sample_env [folderB]] ->
      f ∈ default [] (workspaceFolders env) ->
      folder_key f = "file:///b" ->
      findGQLConfigFile_silent env (fsPath (uri f)) = false)
  /\ (forall c,
         ("file:///b", Some c)
         ∉ clients (reconcile_all [sample_env [folderA; folderB];
                                   sample_env [folderB]] activation).2).
Proof.
  assert (forall env f,
             env ∈ [sample_env [folderA; folderB]; sample_env [folderB]] ->
             f ∈ default [] (workspaceFolders env) ->
             folder_key f = "file:///b" ->
             findGQLConfigFile_silent env (fsPath (uri f)) = false) as H.
  { intros env f Henv Hf Hk.
    repeat (apply elem_of_cons in Henv as [->|Henv]);
      [| |apply elem_of_nil in Henv; contradiction];
      cbn in Hf;
      repeat (apply elem_of_cons in Hf as [->|Hf]);
      try (apply elem_of_nil in Hf; contradiction);
      try discriminate Hk; reflexivity. }
  split; [exact H|].
  apply (markerless_root_never_gets_client
           [sample_env [folderA; folderB]; sample_env [folderB]] "file:///b" H).
Defined.

Lemma open_root_entry_is_kept_witness :
  JSMap.get "file:///b" (clients sample_registry) = Some None
  /\ JSMap.get "file:///b"
       (clients (createClientForWorkspaces
                   (marker_everywhere [folderA; folderB]) sample_registry).2)
     = JSMap.get "file:///b" (clients sample_registry).
Proof.
  split; [vm_compute; reflexivity|].
  apply (open_root_entry_is_kept (marker_everywhere [folderA; folderB])
           sample_registry "file:///b");
    apply (bool_decide_unpack _); vm_compute; exact I.
Defined.

Lemma new_root_gets_entry_witness :
  JSMap.get (folder_key folderA)
    (clients (createClientForWorkspaces (sample_env [folderA; folderB]) activation).2)
  = Some (if findGQLConfigFile_silent (sample_env [folderA; folderB])
               (fsPath (uri folderA))
          then Some (new_client (sample_env [folderA; folderB]) folderA)
          else None).
Proof.
  apply (new_root_gets_entry (sample_env [folderA; folderB]) activation folderA).
  - apply (bool_decide_unpack _). vm_compute. exact I.
  - apply (bool_decide_unpack _). vm_compute. exact I.
  - apply list_elem_of_here.
  - apply not_elem_of_nil.
Defined.

Lemma reconcile_keeps_order_witness :
  exists s' new,
    createClientForWorkspaces (marker_everywhere [folderB; folderA]) registryA
    = (Normal tt, s')
    /\ clients s'
       = filter (fun e => e.1 ∈ root_keys (marker_everywhere [folderB; folderA]))
                (clients registryA) ++ new
    /\ NoDup new.*1
    /\ (forall k, k ∈ new.*1
                  <-> k ∈ root_keys (marker_everywhere [folderB; folderA])
                      /\ k ∉ (clients registryA).*1).
Proof.
  apply (reconcile_keeps_order (marker_everywhere [folderB; folderA]) registryA).
  apply (bool_decide_unpack _). vm_compute. exact I.
Defined.

Lemma one_probe_per_added_entry_witness :
  exists s' new t,
    createClientForWorkspaces (marker_everywhere [folderB; folderX])
      (reconcile_all [sample_env [folderA; folderB]] activation).2
    = (Normal tt, s')
    /\ clients s'
       = filter (fun e => e.1 ∈ root_keys (marker_everywhere [folderB; folderX]))
                (clients (reconcile_all [sample_env [folderA; folderB]]
                            activation).2) ++ new
    /\ trace s'
       = trace (reconcile_all [sample_env [folderA; folderB]] activation).2 ++ t
    /\ length (filter (fun e => is_probe e) t) = length new.
Proof.
  apply (one_probe_per_added_entry [sample_env [folderA; folderB]]
           (marker_everywhere [folderB; folderX])).
  apply (bool_decide_unpack _). vm_compute. exact I.
Defined.

Lemma reconcile_effects_witness :
  trace (createClientForWorkspaces (marker_everywhere [folderB; folderX])
           (reconcile_all [sample_env [folderA; folderB]] activation).2).2
  = trace (reconcile_all [sample_env [folderA; folderB]] activation).2
    ++ concat (creation_effects (marker_everywhere [folderB; folderX])
                 <$> added_folders
                       (default [] (workspaceFolders
                                      (marker_everywhere [folderB; folderX])))
                       (clients (reconcile_all [sample_env [folderA; folderB]]
                                   activation).2).*1)
    ++ concat (removal_effects (root_keys (marker_everywhere [folderB; folderX]))
                 <$> clients (reconcile_all [sample_env [folderA; folderB]]
                                activation).2).
Proof.
  apply (reconcile_effects [sample_env [folderA; folderB]]
           (marker_everywhere [folderB; folderX])).
  apply (bool_decide_unpack _). vm_compute. exact I.
Defined.

Lemma registry_client_provenance_witness :
  workspaceFolder (client {| client := clientA |}) = "file:///a"
  /\ exists env f,
      env ∈ [sample_env [folderA; folderB]]
      /\ f ∈ default [] (workspaceFolders env)
      /\ folder_key f = "file:///a"
      /\ findGQLConfigFile_silent env (fsPath (uri f)) = true
      /\ {| client := clientA |} = new_client env f.
Proof.
  apply (registry_client_provenance [sample_env [folderA; folderB]] "file:///a"
           {| client := clientA |}).
  vm_compute. apply list_elem_of_here.
Defined.

Lemma client_stopped_once_iff_removed_witness :
  length
    (filter (fun e => e = ClientStop "file:///a")
       (drop (length (trace (reconcile_all [sample_env [folderA; folderB]]
                               activation).2))
          (trace (createClientForWorkspaces (sample_env [folderB])
                    (reconcile_all [sample_env [folderA; folderB]]
                       activation).2).2)))
  = if bool_decide ("file:///a" ∈ root_keys (sample_env [folderB])) then 0 else 1.
Proof.
  apply (client_stopped_once_iff_removed [sample_env [folderA; folderB]]
           (sample_env [folderB]) "file:///a" {| client := clientA |}).
  - apply (bool_decide_unpack _). vm_compute. exact I.
  - vm_compute. apply list_elem_of_here.
Defined.

Lemma deactivate_disposes_every_client_witness :
  deactivate registryA
  = (Normal (replicate (length (clients registryA)) VUndefined),
     {| clients := clients registryA;
        trace := trace registryA
                 ++ concat (dispose_effects <$> omap snd (clients registryA));
        commands := without_commands (omap snd (clients registryA))
                                     (commands registryA) |}).
Proof.
  apply (deactivate_disposes_every_client registryA).
  intros e He. vm_compute in He. apply list_elem_of_singleton in He. subst e.
  eexists. reflexivity.
Defined.

Lemma status_event_keeps_the_rest_witness :
  exists w',
    deliver sample_getWorkspaceFolder sample_match ReadyRejected sample_indicator
    = (Normal tt, w')
    /\ item_visible <$> _item w' = item_visible <$> _item sample_indicator
    /\ item_command <$> _item w' = item_command <$> _item sample_indicator
    /\ _client w' = _client sample_indicator
    /\ _disposables w' = _disposables sample_indicator
    /\ registrations w' = registrations sample_indicator
    /\ released w' = released sample_indicator
    /\ effects w' = effects sample_indicator.
Proof.
  apply (status_event_keeps_the_rest sample_getWorkspaceFolder sample_match
           ReadyRejected sample_indicator).
  - reflexivity.
  - apply (bool_decide_unpack _). vm_compute. exact I.
Defined.

Lemma last_focus_change_decides_witness :
  deliver_all sample_getWorkspaceFolder sample_match
    [DidChangeActiveTextEditor (Some {| document := doc_gql |});
     DidChangeActiveTextEditor None] sample_indicator
  = deliver sample_getWorkspaceFolder sample_match
            (DidChangeActiveTextEditor None) sample_indicator.
Proof.
  eapply (last_focus_change_decides sample_getWorkspaceFolder sample_match
            (Some {| document := doc_gql |}) None sample_indicator).
  - vm_compute. reflexivity.
  - vm_compute. reflexivity.
  - apply (bool_decide_unpack _). vm_compute. exact I.
Defined.

Lemma constructor_initial_state_witness :
  exists w it,
    constructor sample_getWorkspaceFolder sample_match clientA
      (Some {| document := doc_ts |})
      (editor_with ["showOutputChannel-Graphql-other"])
    = (Normal tt, w)
    /\ _item w = Some it
    /\ item_command it = Some ("showOutputChannel-" +:+ outputChannel clientA)
    /\ registered_commands w
       = ["showOutputChannel-Graphql-other"]
         ++ ["showOutputChannel-" +:+ outputChannel clientA]
    /\ item_visible it
       = visible_after sample_getWorkspaceFolder sample_match clientA
           (Some {| document := doc_ts |})
    /\ (initializeResult clientA = None ->
        item_visible it
        = bool_decide (sample_getWorkspaceFolder (doc_uri doc_ts)
                       = Some (workspaceFolder clientA)))
    /\ released w = false
    /\ effects w = [].
Proof.
  apply (constructor_initial_state sample_getWorkspaceFolder sample_match
           ["showOutputChannel-Graphql-other"] clientA
           (Some {| document := doc_ts |})).
  apply (bool_decide_unpack _). vm_compute. exact I.
Defined.

Lemma constructor_throws_when_command_taken_witness :
  exists w,
    constructor sample_getWorkspaceFolder sample_match clientA None
      (editor_with ["showOutputChannel-" +:+ outputChannel clientA])
    = (Throw (CommandExists ("showOutputChannel-" +:+ outputChannel clientA)), w)
    /\ _item w = Some createStatusBarItem
    /\ released w = false
    /\ registrations w
       = RegCommand <$> ["showOutputChannel-" +:+ outputChannel clientA].
Proof.
  apply (constructor_throws_when_command_taken sample_getWorkspaceFolder
           sample_match ["showOutputChannel-" +:+ outputChannel clientA]
           clientA None).
  apply list_elem_of_here.
Defined.

Lemma reopened_root_is_probed_again_witness :
  JSMap.get "file:///b" (clients sample_registry) = Some None
  /\ JSMap.get (folder_key folderB)
       (clients (createClientForWorkspaces (marker_everywhere [folderB])
                   (createClientForWorkspaces (sample_env []) sample_registry).2).2)
     = Some (if findGQLConfigFile_silent (marker_everywhere [folderB])
                  (fsPath (uri folderB))
             then Some (new_client (marker_everywhere [folderB]) folderB)
             else None).
Proof.
  split; [vm_compute; reflexivity|].
  apply (reopened_root_is_probed_again (sample_env []) (marker_everywhere [folderB])
           sample_registry folderB).
  - apply (bool_decide_unpack _). vm_compute. exact I.
  - apply (bool_decide_unpack _). vm_compute. exact I.
  - apply not_elem_of_nil.
  - apply (bool_decide_unpack _). vm_compute. exact I.
  - apply list_elem_of_here.
Defined.


Lemma reconcile_idempotent_without_clash_witness :
  (forall k, k ∈ root_keys (sample_env [folderB; folderA; folderB])
             <-> k ∈ root_keys (sample_env [folderA; folderB]))
  /\ createClientForWorkspaces (sample_env [folderB; folderA; folderB])
       (createClientForWorkspaces (sample_env [folderA; folderB]) activation).2
     = (Normal tt,
        (createClientForWorkspaces (sample_env [folderA; folderB]) activation).2).
Proof.
  assert (forall k, k ∈ root_keys (sample_env [folderB; folderA; folderB])
                    <-> k ∈ root_keys (sample_env [folderA; folderB])) as H.
  { intros k. cbn. rewrite !elem_of_cons. tauto. }
  split; [exact H|].
  apply (reconcile_idempotent_without_clash (sample_env [folderA; folderB])
           (sample_env [folderB; folderA; folderB]) activation); [|exact H].
  apply (bool_decide_unpack _). vm_compute. exact I.
Defined.

